(** * QR symbol construction and rendering (backend/qr_generator.py)

    A shallow embedding of the [QRGenerator] class and of the two renderers
    [create_qr_image] and [create_qr_svg], followed by the properties of the
    construction pipeline: version selection, function-module classification,
    bit-stream encoding, data placement, masking and rendering. *)

From Stdlib Require Import ZArith Zbitwise Bool Lia String.
From stdpp Require Import base option list.

Local Open Scope Z_scope.

(** ** Python values and sequences *)

(** A module of the grid holds whatever the code stored in it: the booleans
    written by the allocation, the finder, separator, timing and dark-module
    stages and by [not] in the mask; the integers 0/1 written by the
    format-information and data-placement stages. *)
Inductive cell : Type :=
  | PyBool (b : bool)
  | PyInt (z : Z).

(** Truth value of a stored module ([if v:] in Python). *)
Definition truthy (v : cell) : bool :=
  match v with
  | PyBool b => b
  | PyInt z => negb (z =? 0)
  end.

(** [not v] *)
Definition py_not (v : cell) : cell := PyBool (negb (truthy v)).

(** The integer a value compares as ([bool] is a subclass of [int]). *)
Definition int_of (v : cell) : Z :=
  match v with
  | PyBool b => if b then 1 else 0
  | PyInt z => z
  end.

(** [v == w] *)
Definition py_eq (v w : cell) : bool := int_of v =? int_of w.

(** The values a module state is stored as: [False], [True], [0], [1]. *)
Definition is_module_state (v : cell) : Prop :=
  match v with
  | PyBool _ => True
  | PyInt z => z = 0 \/ z = 1
  end.

(** [range(stop)], [range(start, stop)] *)
Definition py_range2 (start stop : Z) : list Z := seqZ start (stop - start).
Definition py_range (stop : Z) : list Z := py_range2 0 stop.

(** [range(start, stop, step)]; the code never passes step 0. *)
Definition py_range3 (start stop step : Z) : list Z :=
  if 0 <? step then
    (fun k => start + step * k) <$> seqZ 0 ((stop - start + step - 1) / step)
  else if step <? 0 then
    (fun k => start + step * k) <$> seqZ 0 ((start - stop - step - 1) / (- step))
  else [].

(** [len(l)] *)
Definition len {A} (l : list A) : Z := Z.of_nat (length l).

(** Position addressed by index [i] in a sequence of length [n]: a negative
    index counts from the end, anything outside [-n, n) is an IndexError. *)
Definition py_index (n i : Z) : option nat :=
  if (0 <=? i) && (i <? n) then Some (Z.to_nat i)
  else if (- n <=? i) && (i <? 0) then Some (Z.to_nat (n + i))
  else None.

(** [l[i]] *)
Definition py_getitem {A} (l : list A) (i : Z) : option A :=
  match py_index (len l) i with
  | Some k => l !! k
  | None => None
  end.

(** ** Text and its UTF-8 encoding *)

(** A Python [str] is a sequence of code points. *)
Definition pystr : Type := list Z.

(** One code point under [str.encode('utf-8')]; surrogates and values
    that are no code point have no encoding. *)
Definition utf8_encode_char (cp : Z) : option (list Z) :=
  if (cp <? 0) then None
  else if cp <? 128 then Some [cp]
  else if cp <? 2048 then
    Some [Z.lor 192 (Z.shiftr cp 6); Z.lor 128 (Z.land cp 63)]
  else if (55296 <=? cp) && (cp <=? 57343) then None
  else if cp <? 65536 then
    Some [Z.lor 224 (Z.shiftr cp 12);
          Z.lor 128 (Z.land (Z.shiftr cp 6) 63);
          Z.lor 128 (Z.land cp 63)]
  else if cp <? 1114112 then
    Some [Z.lor 240 (Z.shiftr cp 18);
          Z.lor 128 (Z.land (Z.shiftr cp 12) 63);
          Z.lor 128 (Z.land (Z.shiftr cp 6) 63);
          Z.lor 128 (Z.land cp 63)]
  else None.

Fixpoint utf8_encode (s : pystr) : option (list Z) :=
  match s with
  | [] => Some []
  | cp :: s' =>
      match utf8_encode_char cp, utf8_encode s' with
      | Some b, Some bs => Some (b ++ bs)
      | _, _ => None
      end
  end.

(** ** The generator object *)

Inductive ErrorCorrectionLevel : Type := L | M | Q | H.

(** One entry of [version_info]. *)
Record version_entry : Type := {
  size : Z;
  data_capacity : ErrorCorrectionLevel -> Z
}.

Definition capacities (l m q h : Z) (lvl : ErrorCorrectionLevel) : Z :=
  match lvl with L => l | M => m | Q => q | H => h end.

(** [self.version_info]: a dict with the keys 1..5. *)
Definition version_info (v : Z) : option version_entry :=
  if v =? 1 then Some {| size := 21; data_capacity := capacities 152 128 104 72 |}
  else if v =? 2 then Some {| size := 25; data_capacity := capacities 272 224 176 128 |}
  else if v =? 3 then Some {| size := 29; data_capacity := capacities 440 352 272 208 |}
  else if v =? 4 then Some {| size := 33; data_capacity := capacities 640 512 384 288 |}
  else if v =? 5 then Some {| size := 37; data_capacity := capacities 864 688 496 368 |}
  else None.

Abbreviation grid := (list (list cell)).

(** The fields of a [QRGenerator]; [modules] is [None] until [make]
    allocates the matrix. *)
Record QRGenerator : Type := mkQR {
  version : Z;
  error_correction : ErrorCorrectionLevel;
  modules : option grid;
  module_count : Z;
  data : pystr
}.

(** [QRGenerator(version, error_correction)] *)
Definition __init__ (v : Z) (lvl : ErrorCorrectionLevel) : QRGenerator :=
  {| version := v; error_correction := lvl; modules := None;
     module_count := 0; data := [] |}.

Definition with_version (v : Z) (st : QRGenerator) : QRGenerator :=
  {| version := v; error_correction := error_correction st;
     modules := modules st; module_count := module_count st; data := data st |}.

Definition with_modules (g : option grid) (st : QRGenerator) : QRGenerator :=
  {| version := version st; error_correction := error_correction st;
     modules := g; module_count := module_count st; data := data st |}.

Definition with_module_count (n : Z) (st : QRGenerator) : QRGenerator :=
  {| version := version st; error_correction := error_correction st;
     modules := modules st; module_count := n; data := data st |}.

Definition with_data (d : pystr) (st : QRGenerator) : QRGenerator :=
  {| version := version st; error_correction := error_correction st;
     modules := modules st; module_count := module_count st; data := d |}.

(** ** Methods as state transformers that may raise *)

Inductive exn : Type :=
  | ValueError_no_data
  | UnicodeEncodeError
  | KeyError
  | IndexError
  | TypeError
  | ZeroDivisionError.

(** A call either returns a value or raises; either way the object is left
    in the state it had reached. *)
Inductive outcome (A : Type) : Type :=
  | Ret (a : A) (st : QRGenerator)
  | Raise (e : exn) (st : QRGenerator).
Arguments Ret {A} a st.
Arguments Raise {A} e st.

Definition method (A : Type) : Type := QRGenerator -> outcome A.

Definition ret {A} (a : A) : method A := fun st => Ret a st.
Definition raise {A} (e : exn) : method A := fun st => Raise e st.
Definition bind {A B} (m : method A) (k : A -> method B) : method B :=
  fun st =>
    match m st with
    | Ret a st' => k a st'
    | Raise e st' => Raise e st'
    end.
Definition self : method QRGenerator := fun st => Ret st st.
Definition update (f : QRGenerator -> QRGenerator) : method unit :=
  fun st => Ret tt (f st).

Notation "x <- m ;; k" := (bind m (fun x => k))
  (at level 100, m at next level, right associativity).
Notation "m ;; k" := (bind m (fun _ => k))
  (at level 100, right associativity).

(** [for x in l: body x] *)
Fixpoint for_ {A} (l : list A) (body : A -> method unit) : method unit :=
  match l with
  | [] => ret tt
  | x :: l' => body x ;; for_ l' body
  end.

(** A loop whose body also updates local variables [acc]. *)
Fixpoint for_acc {A S} (l : list A) (acc : S) (body : A -> S -> method S)
  : method S :=
  match l with
  | [] => ret acc
  | x :: l' => acc' <- body x acc ;; for_acc l' acc' body
  end.

(** [if b: m] *)
Definition when (b : bool) (m : method unit) : method unit :=
  if b then m else ret tt.

(** [self.modules[row][col]] *)
Definition getitem (row col : Z) : method cell := fun st =>
  match modules st with
  | None => Raise TypeError st
  | Some g =>
      match py_index (len g) row with
      | None => Raise IndexError st
      | Some i =>
          match g !! i with
          | None => Raise IndexError st
          | Some line =>
              match py_index (len line) col with
              | None => Raise IndexError st
              | Some j =>
                  match line !! j with
                  | None => Raise IndexError st
                  | Some v => Ret v st
                  end
              end
          end
      end
  end.

(** [self.modules[row][col] = v]; the rows are distinct list objects, so
    only one module changes. *)
Definition setitem (row col : Z) (v : cell) : method unit := fun st =>
  match modules st with
  | None => Raise TypeError st
  | Some g =>
      match py_index (len g) row with
      | None => Raise IndexError st
      | Some i =>
          match g !! i with
          | None => Raise IndexError st
          | Some line =>
              match py_index (len line) col with
              | None => Raise IndexError st
              | Some j => Ret tt (with_modules (Some (<[i := <[j := v]> line]> g)) st)
              end
          end
      end
  end.

(** ** Version selection *)

(** The [for version in range(1, 6)] loop of [_optimize_version], up to
    its early [return]: the first version of the list whose capacity holds
    [data_length], if there is one. *)
Fixpoint _optimize_version_loop (data_length : Z) (lvl : ErrorCorrectionLevel)
    (versions : list Z) : option Z :=
  match versions with
  | [] => None
  | v :: rest =>
      match version_info v with
      | Some entry =>
          if data_length <=? data_capacity entry lvl then Some v
          else _optimize_version_loop data_length lvl rest
      | None => _optimize_version_loop data_length lvl rest
      end
  end.

Definition _optimize_version : method unit :=
  st <- self ;;
  match utf8_encode (data st) with
  | None => raise UnicodeEncodeError
  | Some data_bytes =>
      let data_length := len data_bytes in
      match _optimize_version_loop data_length (error_correction st) (py_range2 1 6) with
      | Some v => update (with_version v)
      | None => update (with_version 5)
      end
  end.

(** ** Function patterns *)

(** [positions] of the three finder patterns, as the code lists them. *)
Definition finder_positions (n : Z) : list (Z * Z) :=
  [(0, 0); (n - 7, 0); (0, n - 7)].

Definition _place_finder_patterns : method unit :=
  st <- self ;;
  let n := module_count st in
  for_ (finder_positions n) (fun '(row, col) =>
    for_ (py_range 7) (fun r =>
      for_ (py_range 7) (fun c =>
        when ((((r =? 0) || (r =? 6)) && ((0 <=? c) && (c <=? 6)))
              || (((c =? 0) || (c =? 6)) && ((0 <=? r) && (r <=? 6)))
              || (((2 <=? r) && (r <=? 4)) && ((2 <=? c) && (c <=? 4))))
          (when (((0 <=? row + r) && (row + r <? n))
                 && ((0 <=? col + c) && (col + c <? n)))
             (setitem (row + r) (col + c) (PyBool true)))))).

Definition _place_separators : method unit :=
  st <- self ;;
  let n := module_count st in
  for_ (finder_positions n) (fun '(row, col) =>
    for_ (py_range 8) (fun r =>
      for_ (py_range 8) (fun c =>
        when ((row + r <? n) && (col + c <? n))
          (when ((r =? 7) || (c =? 7))
             (setitem (row + r) (col + c) (PyBool false)))))).

Definition _place_timing_patterns : method unit :=
  st <- self ;;
  let n := module_count st in
  for_ (py_range2 8 (n - 8)) (fun i =>
    setitem 6 i (PyBool (i mod 2 =? 0)) ;;
    setitem i 6 (PyBool (i mod 2 =? 0))).

Definition _place_dark_module : method unit :=
  st <- self ;;
  when (21 <? module_count st)
    (setitem (4 * version st + 9) 8 (PyBool true)).

Definition error_level_bits (lvl : ErrorCorrectionLevel) : Z :=
  match lvl with L => 1 | M => 0 | Q => 3 | H => 2 end.

Definition _generate_format_info (st : QRGenerator) : Z :=
  let mask_pattern := 0 in
  Z.lor (Z.shiftl (error_level_bits (error_correction st)) 3) mask_pattern.

Definition _place_format_info : method unit :=
  st <- self ;;
  let n := module_count st in
  let format_info := _generate_format_info st in
  for_ (py_range 15) (fun i =>
    let bit := PyInt (Z.land (Z.shiftr format_info i) 1) in
    if i <? 6 then
      when ((8 <? n) && (i <? n)) (setitem 8 i bit) ;;
      when ((0 <=? n - 1 - i) && (8 <? n)) (setitem (n - 1 - i) 8 bit)
    else if i <? 8 then
      when ((8 <? n) && (i + 1 <? n)) (setitem 8 (i + 1) bit) ;;
      when (((0 <=? n - 7 + i) && (n - 7 + i <? n)) && (8 <? n))
        (setitem (n - 7 + i) 8 bit)
    else if i <? 9 then
      when ((7 <? n) && (8 <? n)) (setitem 7 8 bit) ;;
      when ((8 <? n) && (0 <=? n - 8)) (setitem 8 (n - 8) bit)
    else
      when ((0 <=? 14 - i) && (8 <? n)) (setitem (14 - i) 8 bit) ;;
      when (((8 <? n) && (0 <=? n - 15 + i)) && (n - 15 + i <? n))
        (setitem 8 (n - 15 + i) bit)).

(** ** Bit stream *)

(** [(x >> i) & 1 for i in range(7, -1, -1)] *)
Definition bits8 (x : Z) : list Z :=
  (fun i => Z.land (Z.shiftr x i) 1) <$> py_range3 7 (-1) (-1).

Definition _encode_data : method (list Z) :=
  st <- self ;;
  match utf8_encode (data st) with
  | None => raise UnicodeEncodeError
  | Some data_bytes =>
      let encoded := [0; 1; 0; 0] in
      let count := len data_bytes in
      let encoded := encoded ++ bits8 count in
      let encoded := foldl (fun acc byte => acc ++ bits8 byte) encoded data_bytes in
      ret encoded
  end.

Definition _add_error_correction (data : list Z) : method (list Z) :=
  ret data.

(** ** Function-module classifier *)

Definition _is_function_module (st : QRGenerator) (row col : Z) : bool :=
  let n := module_count st in
  if ((row <? 9) && (col <? 9))
     || ((row <? 9) && (n - 8 <=? col))
     || ((n - 8 <=? row) && (col <? 9)) then true
  else if (row =? 6) || (col =? 6) then true
  else if ((1 <? version st) && (row =? 4 * version st + 9)) && (col =? 8) then true
  else false.

(** ** Data placement *)

(** The local variables of [_place_data]. *)
Record place_locals : Type := {
  bit_index : Z;
  direction : Z
}.

(** Body of [for c in range(2)]: one visited position. *)
Definition _place_data_visit (data : list Z) (direction col i c : Z)
    (bit_index : Z) : method Z :=
  st <- self ;;
  let n := module_count st in
  let current_col := col - c in
  let row := if direction =? -1 then n - 1 - (i mod n) else i mod n in
  if negb (_is_function_module st row current_col) then
    if bit_index <? len data then
      match py_getitem data bit_index with
      | Some b => setitem row current_col (PyInt b) ;; ret (bit_index + 1)
      | None => raise IndexError
      end
    else ret bit_index
  else ret bit_index.

Definition _place_data (data : list Z) : method unit :=
  st <- self ;;
  let n := module_count st in
  for_acc (py_range3 (n - 1) 0 (-2)) {| bit_index := 0; direction := -1 |}
    (fun col loc =>
       let col := if col =? 6 then col - 1 else col in
       for_acc (py_range n) loc (fun i loc =>
         bit_index' <- for_acc (py_range 2) (bit_index loc)
                         (_place_data_visit data (direction loc) col i) ;;
         ret {| bit_index := bit_index'; direction := direction loc * -1 |})) ;;
  ret tt.

(** ** Mask *)

Definition _apply_mask : method unit :=
  st <- self ;;
  let n := module_count st in
  for_ (py_range n) (fun row =>
    for_ (py_range n) (fun col =>
      st <- self ;;
      when (negb (_is_function_module st row col))
        (when ((row + col) mod 2 =? 0)
           (v <- getitem row col ;; setitem row col (py_not v))))).

(** ** Queries *)

Definition get_module_count : method Z :=
  st <- self ;; ret (module_count st).

Definition is_dark (row col : Z) : method cell :=
  st <- self ;;
  if ((0 <=? row) && (row <? module_count st))
     && ((0 <=? col) && (col <? module_count st))
  then getitem row col
  else ret (PyBool false).

(** ** The build pipeline *)

Definition add_data (d : pystr) : method unit := update (with_data d).

(** [[[False for _ in range(n)] for _ in range(n)]] *)
Definition new_matrix (n : Z) : grid :=
  (fun _ => (fun _ => PyBool false) <$> py_range n) <$> py_range n.

(** [make] from the allocation of the matrix on, that is after the payload
    check and [_optimize_version]. *)
Definition make_matrix : method unit :=
  st <- self ;;
  match version_info (version st) with
  | None => raise KeyError
  | Some entry =>
      update (with_module_count (size entry)) ;;
      update (with_modules (Some (new_matrix (size entry)))) ;;
      _place_finder_patterns ;;
      _place_separators ;;
      _place_timing_patterns ;;
      _place_dark_module ;;
      _place_format_info ;;
      encoded_data <- _encode_data ;;
      error_corrected_data <- _add_error_correction encoded_data ;;
      _place_data error_corrected_data ;;
      _apply_mask
  end.

Definition make : method unit :=
  st <- self ;;
  match data st with
  | [] => raise ValueError_no_data
  | _ :: _ => _optimize_version ;; make_matrix
  end.

(** The text [s] as code points, for the examples. *)
Definition str (s : string) : pystr :=
  (fun a => Z.of_N (Ascii.N_of_ascii a)) <$> list_ascii_of_string s.

Definition generate (lvl : ErrorCorrectionLevel) (payload : pystr) : outcome unit :=
  (add_data payload ;; make) (__init__ 1 lvl).

(** ** Renderers *)

(** The three shapes a module is drawn as. *)
Inductive ShapeVariant : Type := Square | Circle | Rounded.

(** A call on the [ImageDraw] canvas. The pixel box of a module is
    [col * cell_size, row * cell_size] with the floating-point
    [cell_size = 512 / module_count]; a call is recorded with the module
    coordinates it was computed from. *)
Inductive draw_call : Type :=
  | ellipse (row col : Z) (fill : string)
  | rounded_rectangle (row col : Z) (fill : string)
  | rectangle (row col : Z) (fill : string).

(** An element appended to [svg_content], recorded the same way. *)
Inductive svg_element : Type :=
  | svg_circle (row col : Z) (fill : string)
  | svg_rect_rx (row col : Z) (fill : string)
  | svg_rect (row col : Z) (fill : string).

Section Renderers.

(** [PIL.ImageColor.getrgb]: [None] when it raises. *)
Variable getrgb : string -> option (Z * Z * Z).

(** [is_finder] as computed in [create_qr_image]. *)
Definition is_finder_image (module_count row col : Z) : bool :=
  ((row <? 7) && (col <? 7))
  || ((row <? 7) && (module_count - 7 <=? col))
  || ((module_count - 7 <=? row) && (col <? 7)).

(** The module loop of [create_qr_image]: the calls made on the canvas,
    in order. The logo is pasted afterwards, inside its own [try]. *)
Definition create_qr_image (color marker_shape dot_shape : string)
  : method (list draw_call) :=
  let color := match getrgb color with
               | Some _ => color
               | None => "#000000"%string
               end in
  module_count <- get_module_count ;;
  if module_count =? 0 then raise ZeroDivisionError else
  for_acc (py_range module_count) [] (fun row img =>
    for_acc (py_range module_count) img (fun col img =>
      dark <- is_dark row col ;;
      if truthy dark then
        let is_finder := is_finder_image module_count row col in
        let shape := if is_finder then marker_shape else dot_shape in
        if String.eqb shape "circle" then ret (img ++ [ellipse row col color])
        else if String.eqb shape "rounded" then
          ret (img ++ [rounded_rectangle row col color])
        else ret (img ++ [rectangle row col color])
      else ret img)).

(** [is_finder] as computed in [create_qr_svg]. *)
Definition is_finder_svg (module_count row col : Z) : bool :=
  ((row <? 7) && (col <? 7))
  || ((row <? 7) && (module_count - 7 <=? col))
  || ((module_count - 7 <=? row) && (col <? 7)).

(** The module loop of [create_qr_svg]: the elements that follow the
    background rectangle, in order. *)
Definition create_qr_svg (color marker_shape dot_shape : string)
  : method (list svg_element) :=
  let color := match getrgb color with
               | Some _ => color
               | None => "#000000"%string
               end in
  module_count <- get_module_count ;;
  if module_count =? 0 then raise ZeroDivisionError else
  for_acc (py_range module_count) [] (fun row svg_content =>
    for_acc (py_range module_count) svg_content (fun col svg_content =>
      dark <- is_dark row col ;;
      if truthy dark then
        let is_finder := is_finder_svg module_count row col in
        let shape := if is_finder then marker_shape else dot_shape in
        if String.eqb shape "circle" then
          ret (svg_content ++ [svg_circle row col color])
        else if String.eqb shape "rounded" then
          ret (svg_content ++ [svg_rect_rx row col color])
        else ret (svg_content ++ [svg_rect row col color])
      else ret svg_content)).

End Renderers.

(** What a canvas call and an element draw: where, in which shape, in which
    colour. *)
Definition drawn_image (d : draw_call) : Z * Z * ShapeVariant * string :=
  match d with
  | ellipse r c f => (r, c, Circle, f)
  | rounded_rectangle r c f => (r, c, Rounded, f)
  | rectangle r c f => (r, c, Square, f)
  end.

Definition drawn_svg (e : svg_element) : Z * Z * ShapeVariant * string :=
  match e with
  | svg_circle r c f => (r, c, Circle, f)
  | svg_rect_rx r c f => (r, c, Rounded, f)
  | svg_rect r c f => (r, c, Square, f)
  end.

(** * Vocabulary of the properties *)

(** ** Grids *)

(** A square grid of side [n]. *)
Definition wf_grid (n : Z) (g : grid) : Prop :=
  length g = Z.to_nat n /\ Forall (fun line : list cell => length line = Z.to_nat n) g.

(** The module stored at row [r], column [c]. *)
Definition cell_at (g : grid) (r c : Z) : option cell :=
  match g !! Z.to_nat r with
  | Some line => line !! Z.to_nat c
  | None => None
  end.

(** Every module holds one of [False], [True], [0], [1]. *)
Definition module_states (g : grid) : Prop :=
  Forall (Forall is_module_state) g.

(** What holds of the object whenever a method is entered: the matrix is
    either not allocated yet, with [module_count = 0], or square of side
    [module_count]. *)
Definition grid_ok (st : QRGenerator) : Prop :=
  match modules st with
  | Some g => wf_grid (module_count st) g
  | None => module_count st = 0
  end.

Definition in_grid (n r c : Z) : Prop := 0 <= r < n /\ 0 <= c < n.

(** The grid after [modules[r][c] = v]. *)
Definition grid_set (g : grid) (r c : Z) (v : cell) : grid :=
  alter (fun line => <[Z.to_nat c := v]> line) (Z.to_nat r) g.

(** ** Regions of the classifier *)

(** The three corner neighbourhoods the classifier reserves: 9x9 at the top
    left, 9 rows by 8 columns at the top right, 8 rows by 9 columns at the
    bottom left. *)
Definition reserved_corners (n r c : Z) : Prop :=
  (0 <= r <= 8 /\ 0 <= c <= 8)
  \/ (0 <= r <= 8 /\ n - 8 <= c <= n - 1)
  \/ (n - 8 <= r <= n - 1 /\ 0 <= c <= 8).

(** Three corner neighbourhoods of 9x9 modules each. *)
Definition nine_by_nine_corners (n r c : Z) : Prop :=
  (0 <= r <= 8 /\ 0 <= c <= 8)
  \/ (0 <= r <= 8 /\ n - 9 <= c <= n - 1)
  \/ (n - 9 <= r <= n - 1 /\ 0 <= c <= 8).

(** ** The bit stream in words *)

(** The eight binary digits of [x], most significant first. *)
Definition msb_first8 (x : Z) : list Z :=
  [x / 128 mod 2; x / 64 mod 2; x / 32 mod 2; x / 16 mod 2;
   x / 8 mod 2; x / 4 mod 2; x / 2 mod 2; x mod 2].

(** Mode indicator 0100, the byte count on 8 bits, then the bytes. *)
Definition bit_stream (payload_bytes : list Z) : list Z :=
  [0; 1; 0; 0] ++ msb_first8 (len payload_bytes)
    ++ concat (msb_first8 <$> payload_bytes).

(** ** Loops over the grid *)

(** The positions a row-major double loop goes through. *)
Fixpoint positions (rows cols : list Z) : list (Z * Z) :=
  match rows with
  | [] => []
  | r :: rows' => ((fun c => (r, c)) <$> cols) ++ positions rows' cols
  end.

(** The body of the double loop of [_apply_mask] at one position. *)
Definition mask_at (p : Z * Z) : method unit :=
  st <- self ;;
  when (negb (_is_function_module st p.1 p.2))
    (when ((p.1 + p.2) mod 2 =? 0)
       (v <- getitem p.1 p.2 ;; setitem p.1 p.2 (py_not v))).

(** The positions the mask toggles. *)
Definition masked (st : QRGenerator) (r c : Z) : bool :=
  negb (_is_function_module st r c) && ((r + c) mod 2 =? 0).

Definition mask_value (st : QRGenerator) (p : Z * Z) (v : cell) : cell :=
  if masked st p.1 p.2 then py_not v else v.

(** [g == g'] on lists of lists of module values. *)
Definition grid_eq (g g' : grid) : Prop :=
  Forall2 (Forall2 (fun v w => py_eq v w = true)) g g'.

(** From any matrix satisfying [I], the call [m] on the object [st0]
    returns, has changed at most the matrix, which still satisfies [I], and
    its value satisfies [Q]. *)
Definition keeps {A} (st0 : QRGenerator) (I : grid -> Prop) (Q : A -> Prop)
    (m : method A) : Prop :=
  forall g, I g ->
    exists a g', m (with_modules (Some g) st0) = Ret a (with_modules (Some g') st0)
      /\ I g' /\ Q a.

(** The grid [g] relative to the grid [g0] the placement started from:
    still square, still holding module states, and equal to [g0] on every
    function module. *)
Definition placed_over (st0 : QRGenerator) (g0 g : grid) : Prop :=
  wf_grid (module_count st0) g
  /\ module_states g
  /\ forall r c, in_grid (module_count st0) r c ->
       _is_function_module st0 r c = true -> cell_at g r c = cell_at g0 r c.

Definition is_bit (b : Z) : Prop := b = 0 \/ b = 1.

(** ** Versions and the stages of [make] *)

(** The capacity-table entry of a version at a level. *)
Definition capacity (v : Z) (lvl : ErrorCorrectionLevel) : Z :=
  match version_info v with
  | Some entry => data_capacity entry lvl
  | None => 0
  end.

(** [v] is the smallest version 1..5 whose capacity at [lvl] holds
    [n] bytes, or 5 when none does. *)
Definition selected_version (lvl : ErrorCorrectionLevel) (n v : Z) : Prop :=
  1 <= v <= 5
  /\ ((n <= capacity v lvl /\ forall v', 1 <= v' < v -> capacity v' lvl < n)
      \/ (v = 5 /\ forall v', 1 <= v' <= 5 -> capacity v' lvl < n)).

(** Allocation and the five function-pattern stages, as [make] chains them. *)
Definition function_pattern_stages (entry : version_entry) : method unit :=
  update (with_module_count (size entry)) ;;
  update (with_modules (Some (new_matrix (size entry)))) ;;
  _place_finder_patterns ;;
  _place_separators ;;
  _place_timing_patterns ;;
  _place_dark_module ;;
  _place_format_info.

(** The rest of [make]: encoding, error correction, placement, mask. *)
Definition payload_stages : method unit :=
  encoded_data <- _encode_data ;;
  error_corrected_data <- _add_error_correction encoded_data ;;
  _place_data error_corrected_data ;;
  _apply_mask.

(** The matrix of a version and level once the function patterns are
    placed, before any payload bit. *)
Definition function_patterns (v : Z) (lvl : ErrorCorrectionLevel) : grid :=
  match version_info v with
  | Some entry =>
      match function_pattern_stages entry (mkQR v lvl None 0 []) with
      | Ret _ st => default [] (modules st)
      | Raise _ _ => []
      end
  | None => []
  end.

#[local] Instance is_module_state_dec v : Decision (is_module_state v).
Proof. destruct v; simpl; apply _. Defined.

#[local] Instance wf_grid_dec n g : Decision (wf_grid n g).
Proof. unfold wf_grid. apply _. Defined.

#[local] Instance module_states_dec g : Decision (module_states g).
Proof. unfold module_states. apply _. Defined.

(** The object of the scenario "Hello World" at level High. *)
Definition hello_world : QRGenerator :=
  with_data (str "Hello World") (__init__ 1 H).

(** ** Corner neighbourhoods *)

Inductive corner : Type := TopLeft | TopRight | BottomLeft.

(** The module at offset [(dr, dc)], both in 0..8, of the 9x9 neighbourhood
    of a corner of a grid of side [n]. *)
Definition corner_cell (n : Z) (g : grid) (k : corner) (dr dc : Z) : option cell :=
  match k with
  | TopLeft => cell_at g dr dc
  | TopRight => cell_at g dr (n - 9 + dc)
  | BottomLeft => cell_at g (n - 9 + dr) dc
  end.



#[local] Instance cell_eq_dec : EqDecision cell.
Proof. solve_decision. Defined.




(** ** What the renderers draw *)

(** [shape == "circle"], [shape == "rounded"], else square. *)
Definition shape_of (shape : string) : ShapeVariant :=
  if String.eqb shape "circle" then Circle
  else if String.eqb shape "rounded" then Rounded
  else Square.

(** The three 7x7 finder footprints of a grid of side [n]. *)
Definition finder_footprint (n r c : Z) : Prop :=
  (0 <= r <= 6 /\ 0 <= c <= 6)
  \/ (0 <= r <= 6 /\ n - 7 <= c <= n - 1)
  \/ (n - 7 <= r <= n - 1 /\ 0 <= c <= 6).

Definition finder_footprintb (n r c : Z) : bool :=
  ((r <=? 6) && (c <=? 6))
  || ((r <=? 6) && (n - 7 <=? c))
  || ((n - 7 <=? r) && (c <=? 6)).

(** The dark modules of a grid in row-major order, each with the shape
    variant its position calls for. *)
Definition dark_modules (g : grid) (n : Z) (marker_shape dot_shape : string)
  : list (Z * Z * ShapeVariant) :=
  concat ((fun p : Z * Z =>
             match cell_at g p.1 p.2 with
             | Some v =>
                 if truthy v then
                   [(p.1, p.2,
                     shape_of (if finder_footprintb n p.1 p.2 then marker_shape
                               else dot_shape))]
                 else []
             | None => []
             end) <$> positions (py_range n) (py_range n)).

(** The colour a renderer draws with. *)
Definition fill_colour (getrgb : string -> option (Z * Z * Z)) (color : string)
  : string :=
  match getrgb color with
  | Some _ => color
  | None => "#000000"%string
  end.

Definition draw_call_of (fill : string) (m : Z * Z * ShapeVariant) : draw_call :=
  match m with
  | (r, c, Circle) => ellipse r c fill
  | (r, c, Rounded) => rounded_rectangle r c fill
  | (r, c, Square) => rectangle r c fill
  end.

Definition svg_element_of (fill : string) (m : Z * Z * ShapeVariant) : svg_element :=
  match m with
  | (r, c, Circle) => svg_circle r c fill
  | (r, c, Rounded) => svg_rect_rx r c fill
  | (r, c, Square) => svg_rect r c fill
  end.

(** The finished symbol of the scenario "Hello World" at level High. *)
Definition hello_world_symbol : QRGenerator :=
  match make hello_world with
  | Ret _ st => st
  | Raise _ st => st
  end.

#[local] Instance grid_ok_dec st : Decision (grid_ok st).
Proof. unfold grid_ok. destruct (modules st); apply _. Defined.

(** A colour parser for the examples: it knows one colour. *)
Definition only_red (color : string) : option (Z * Z * Z) :=
  if String.eqb color "#ff0000" then Some (255, 0, 0) else None.

(** ** The order of placement *)

(** One visited position: the direction in force and the loop variables
    [col], [_] and [c] of [_place_data]. *)
Record visit : Type := {
  visit_direction : Z;
  visit_col : Z;
  visit_index : Z;
  visit_c : Z
}.

(** The visits of the loop over the rows of one column pair, and the
    direction left for the next pair. *)
Fixpoint sweep (col : Z) (indices : list Z) (direction : Z) : list visit * Z :=
  match indices with
  | [] => ([], direction)
  | i :: rest =>
      let '(visits, direction') := sweep col rest (direction * -1) in
      ({| visit_direction := direction; visit_col := col;
          visit_index := i; visit_c := 0 |}
       :: {| visit_direction := direction; visit_col := col;
             visit_index := i; visit_c := 1 |}
       :: visits, direction')
  end.

Fixpoint sweeps (n : Z) (cols : list Z) (direction : Z) : list visit :=
  match cols with
  | [] => []
  | col :: rest =>
      let col := if col =? 6 then col - 1 else col in
      let '(visits, direction') := sweep col (py_range n) direction in
      visits ++ sweeps n rest direction'
  end.

(** All visits of [_place_data] on a grid of side [n], in order. *)
Definition _place_data_order (n : Z) : list visit :=
  sweeps n (py_range3 (n - 1) 0 (-2)) (-1).

(** The row and column a visit addresses. *)
Definition visit_row (n : Z) (v : visit) : Z :=
  if visit_direction v =? -1 then n - 1 - (visit_index v mod n)
  else visit_index v mod n.
Definition visit_column (v : visit) : Z := visit_col v - visit_c v.

Definition visit_step (data : list Z) (v : visit) (bit_index : Z) : method Z :=
  _place_data_visit data (visit_direction v) (visit_col v) (visit_index v)
    (visit_c v) bit_index.

(** ** Function patterns of a finished symbol *)

(** The 7x7 finder pattern at offset [(r, c)]: dark outer ring, light
    ring, dark 3x3 core. *)
Definition finder_ring (r c : Z) : bool :=
  (r =? 0) || (r =? 6) || (c =? 0) || (c =? 6)
  || ((2 <=? r) && (r <=? 4) && (2 <=? c) && (c <=? 4)).

Definition holds (g : grid) (r c : Z) (v : cell) : bool :=
  bool_decide (cell_at g r c = Some v).

(** The three finder patterns of a grid of side [n]. *)
Definition finders_ok (n : Z) (g : grid) : bool :=
  forallb (fun r =>
    forallb (fun c =>
      holds g r c (PyBool (finder_ring r c))
      && holds g (n - 7 + r) c (PyBool (finder_ring r c))
      && holds g r (n - 7 + c) (PyBool (finder_ring r c)))
      (py_range 7))
    (py_range 7).

(** The light border one module wide around each finder pattern. *)
Definition separators_ok (n : Z) (g : grid) : bool :=
  forallb (fun i =>
    holds g 7 i (PyBool false) && holds g i 7 (PyBool false)
    && holds g i (n - 8) (PyBool false) && holds g 7 (n - 8 + i) (PyBool false)
    && holds g (n - 8) i (PyBool false) && holds g (n - 8 + i) 7 (PyBool false))
    (py_range 8).

(** Row 6 and column 6 between the finder patterns: dark at even indices. *)
Definition timing_ok (n : Z) (g : grid) : bool :=
  forallb (fun i =>
    holds g 6 i (PyBool (i mod 2 =? 0)) && holds g i 6 (PyBool (i mod 2 =? 0)))
    (py_range2 8 (n - 8)).

(** The level whose two-bit code is [high], [low]. *)
Definition read_level (high low : cell) : option ErrorCorrectionLevel :=
  match high, low with
  | PyInt 0, PyInt 1 => Some L
  | PyInt 0, PyInt 0 => Some M
  | PyInt 1, PyInt 1 => Some Q
  | PyInt 1, PyInt 0 => Some H
  | _, _ => None
  end.

(** The positions of format bit [i] next to the top-left finder pattern,
    bits 0..8 along row 8 and up column 8 as [_place_format_info] has them. *)
Definition format_position (i : Z) : Z * Z :=
  if i <? 6 then (8, i)
  else if i <? 8 then (8, i + 1)
  else if i <? 9 then (7, 8)
  else (14 - i, 8).

(** The format modules of a grid: the two level bits at bits 3 and 4, in
    both copies, and 0 at every other format position next to the top-left
    finder pattern. *)
Definition format_ok (n : Z) (lvl : ErrorCorrectionLevel) (g : grid) : bool :=
  holds g 8 3 (PyInt (error_level_bits lvl mod 2))
  && holds g 8 4 (PyInt (error_level_bits lvl / 2))
  && holds g (n - 4) 8 (PyInt (error_level_bits lvl mod 2))
  && holds g (n - 5) 8 (PyInt (error_level_bits lvl / 2))
  && forallb (fun i =>
       ((i =? 3) || (i =? 4))
       || holds g (format_position i).1 (format_position i).2 (PyInt 0))
       (py_range 15).

(** The UTF-8 bytes of "Hello World". *)
Definition hello_world_bytes : list Z :=
  [72; 101; 108; 108; 111; 32; 87; 111; 114; 108; 100].

(** ** Version selection as a function *)

(** The version [_optimize_version] stores for a byte length at a level. *)
Definition chosen_version (lvl : ErrorCorrectionLevel) (data_length : Z) : Z :=
  match _optimize_version_loop data_length lvl (py_range2 1 6) with
  | Some v => v
  | None => 5
  end.

(** The levels by strength: L, M, Q, H. *)
Definition level_rank (lvl : ErrorCorrectionLevel) : Z :=
  match lvl with L => 0 | M => 1 | Q => 2 | H => 3 end.

(** ** The path of the payload bits *)

Definition visit_position (n : Z) (v : visit) : Z * Z :=
  (visit_row n v, visit_column v).

(** The visits that are not function modules, in order. *)
Definition data_visits (st : QRGenerator) (visits : list visit) : list visit :=
  List.filter
    (fun v => negb (_is_function_module st (visit_row (module_count st) v)
                      (visit_column v)))
    visits.

(** The positions that receive the bits of the stream, in the order in
    which they receive them; a position can occur more than once. *)
Definition positions_of (st : QRGenerator) (visits : list visit) : list (Z * Z) :=
  visit_position (module_count st) <$> data_visits st visits.

Definition placement_path (st : QRGenerator) : list (Z * Z) :=
  positions_of st (_place_data_order (module_count st)).

(** The grid after storing the bits along a path, one bit per position,
    until the bits or the path run out. *)
Definition write_bits (g : grid) (bits : list Z) (path : list (Z * Z)) : grid :=
  foldl (fun g bp => grid_set g bp.2.1 bp.2.2 (PyInt bp.1)) g (zip bits path).

(** The number of positions on the path of a version. *)
Definition path_length (v : Z) : Z :=
  len (placement_path (mkQR v L None (4 * v + 17) [])).

(** The number of leading payload bytes with at least one bit on the path. *)
Definition bytes_reached (v : Z) : Z := (path_length v - 12 + 7) / 8.

(** ** The contact record and the SVG request handler *)

(** The line feed of the template. *)
Definition newline : pystr := [10].

(** [generate_vcard]: the f-string template with its seven fields. *)
Definition generate_vcard (name phone email company title url_work url_home : pystr)
  : pystr :=
  str "BEGIN:VCARD" ++ newline
  ++ str "VERSION:3.0" ++ newline
  ++ str "FN:" ++ name ++ newline
  ++ str "TEL:" ++ phone ++ newline
  ++ str "EMAIL:" ++ email ++ newline
  ++ str "ORG:" ++ company ++ newline
  ++ str "TITLE:" ++ title ++ newline
  ++ str "URL;TYPE=WORK:" ++ url_work ++ newline
  ++ str "URL;TYPE=HOME:" ++ url_home ++ newline
  ++ str "END:VCARD".

(** The fields of [QRCodeRequest] that the SVG handler reads. *)
Record QRCodeRequest : Type := {
  req_name : pystr;
  req_phone : pystr;
  req_email : pystr;
  req_company : pystr;
  req_title : pystr;
  req_url_work : pystr;
  req_url_home : pystr;
  req_color : string;
  req_marker_shape : string;
  req_dot_shape : string
}.

(** What a handler answers: a response, or the [HTTPException] with status
    500 that its [except Exception] clause raises. *)
Inductive http_result (A : Type) : Type :=
  | Response200 (body : A)
  | HTTPException500 (e : exn).
Arguments Response200 {A} body.
Arguments HTTPException500 {A} e.

Definition request_vcard (request : QRCodeRequest) : pystr :=
  generate_vcard (req_name request) (req_phone request) (req_email request)
    (req_company request) (req_title request) (req_url_work request)
    (req_url_home request).

(** [generate_qr_code_svg] of server.py, from the request to the pair of
    [svg_content] and [vcard_content] of its response. *)
Definition generate_qr_code_svg (getrgb : string -> option (Z * Z * Z))
    (request : QRCodeRequest) : http_result (list svg_element * pystr) :=
  let vcard_content := request_vcard request in
  let qr := __init__ 1 H in
  match (add_data vcard_content ;;
         make ;;
         create_qr_svg getrgb (req_color request) (req_marker_shape request)
           (req_dot_shape request)) qr with
  | Ret svg_content _ => Response200 (svg_content, vcard_content)
  | Raise e _ => HTTPException500 e
  end.

(** The UTF-8 bytes of the fixed text of the template, field by field. *)
Definition vcard_bytes (name phone email company title url_work url_home : list Z)
  : list Z :=
  generate_vcard name phone email company title url_work url_home.

(** A byte. *)
Definition is_byte (b : Z) : Prop := 0 <= b < 256.

(** An example request. *)
Definition sample_request : QRCodeRequest :=
  {| req_name := str "Ada Lovelace"; req_phone := str "+44 20 7946 0000";
     req_email := str "ada@example.com"; req_company := str "Analytical Engines";
     req_title := str "Engineer"; req_url_work := str "https://work.example.com";
     req_url_home := []; req_color := "invalid-color";
     req_marker_shape := "circle"; req_dot_shape := "invalid-shape" |}.

(** Every text field of the request has a UTF-8 encoding. *)
Definition fields_encodable (request : QRCodeRequest) : Prop :=
  Forall (fun field => utf8_encode field <> None)
    [req_name request; req_phone request; req_email request; req_company request;
     req_title request; req_url_work request; req_url_home request].

Definition is_ascii (s : pystr) : bool :=
  forallb (fun c => (0 <=? c) && (c <? 128)) s.

(** The coordinates of a drawn primitive. *)
Definition svg_coordinates (e : svg_element) : Z * Z :=
  ((drawn_svg e).1.1.1, (drawn_svg e).1.1.2).
Definition image_coordinates (d : draw_call) : Z * Z :=
  ((drawn_image d).1.1.1, (drawn_image d).1.1.2).

(** The module at [(r, c)] is stored and dark. *)
Definition dark_at (g : grid) (r c : Z) : Prop :=
  exists v, cell_at g r c = Some v /\ truthy v = true.

(** Column 0 of the function patterns is light between the finder
    neighbourhoods. *)
Definition column_0_light (n : Z) (g : grid) : bool :=
  forallb (fun r => holds g r 0 (PyBool false)) (py_range2 9 (n - 8)).

(** No position of the path lies in column 0. *)
Definition path_avoids_column_0 (v : Z) : bool :=
  forallb (fun p : Z * Z => negb (p.2 =? 0))
    (placement_path (mkQR v L None (4 * v + 17) [])).

(** * Properties *)

(** ** Grids *)

Lemma py_index_in n i : 0 <= i < n -> py_index n i = Some (Z.to_nat i).
Proof.
  intros Hi. unfold py_index.
  destruct (0 <=? i) eqn:E1; [|lia]. destruct (i <? n) eqn:E2; [done|lia].
Qed.

Lemma with_modules_same st g : modules st = Some g -> with_modules (Some g) st = st.
Proof. destruct st; simpl; intros ->; reflexivity. Qed.

Lemma with_modules_twice g g' st :
  with_modules g' (with_modules g st) = with_modules g' st.
Proof. reflexivity. Qed.

Lemma wf_grid_lookup n g r :
  wf_grid n g -> 0 <= r < n -> exists line, g !! Z.to_nat r = Some line /\ length line = Z.to_nat n.
Proof.
  intros [Hlen Hrows] Hr.
  destruct (lookup_lt_is_Some_2 g (Z.to_nat r)) as [line Hline]; [lia|].
  exists line; split; [done|]. by eapply (Forall_lookup_1 _ _ _ _ Hrows Hline).
Qed.

Lemma cell_at_in n g r c :
  wf_grid n g -> in_grid n r c -> exists v, cell_at g r c = Some v.
Proof.
  intros Hwf [Hr Hc]. destruct (wf_grid_lookup n g r Hwf Hr) as (line & Hl & Hlen).
  unfold cell_at. rewrite Hl. apply lookup_lt_is_Some_2. lia.
Qed.

Lemma grid_set_wf n g r c v : wf_grid n g -> wf_grid n (grid_set g r c v).
Proof.
  intros [Hlen Hrows]. split; unfold grid_set.
  - by rewrite length_alter.
  - apply Forall_lookup_2. intros i line Hi.
    rewrite list_lookup_alter in Hi. case_decide; subst.
    + destruct (g !! Z.to_nat r) as [line0|] eqn:E; simplify_eq/=.
      rewrite length_insert. by eapply (Forall_lookup_1 _ _ _ _ Hrows E).
    + by eapply (Forall_lookup_1 _ _ _ _ Hrows Hi).
Qed.

Lemma grid_set_cell_at n g r c v r' c' :
  wf_grid n g -> in_grid n r c -> 0 <= r' -> 0 <= c' ->
  cell_at (grid_set g r c v) r' c' =
    if decide (r' = r /\ c' = c) then Some v else cell_at g r' c'.
Proof.
  intros Hwf [Hr Hc] Hr' Hc'. unfold cell_at, grid_set.
  destruct (wf_grid_lookup n g r Hwf Hr) as (line & Hl & Hlen).
  rewrite list_lookup_alter. destruct (decide (Z.to_nat r = Z.to_nat r')) as [E|E].
  - assert (r' = r) by lia. subst r'. rewrite Hl. simpl.
    rewrite list_lookup_insert. case_decide as D.
    + destruct D as [D _]. assert (c' = c) by lia. subst.
      rewrite decide_True; [done|]. split; done.
    + rewrite decide_False; [done|]. intros [_ ->]. apply D. split; [done|lia].
  - rewrite decide_False; [done|]. intros [-> _]. done.
Qed.

Lemma grid_set_states g r c v :
  module_states g -> is_module_state v -> module_states (grid_set g r c v).
Proof.
  intros Hg Hv. unfold module_states, grid_set. apply Forall_lookup_2.
  intros i line Hi. rewrite list_lookup_alter in Hi. case_decide; subst.
  - destruct (g !! Z.to_nat r) as [line0|] eqn:E; simplify_eq/=.
    apply Forall_insert; [|done]. by eapply (Forall_lookup_1 _ _ _ _ Hg E).
  - by eapply (Forall_lookup_1 _ _ _ _ Hg Hi).
Qed.

Lemma setitem_in n st g r c v :
  modules st = Some g -> wf_grid n g -> in_grid n r c ->
  setitem r c v st = Ret tt (with_modules (Some (grid_set g r c v)) st).
Proof.
  intros Hm Hwf [Hr Hc]. unfold setitem. rewrite Hm.
  destruct (wf_grid_lookup n g r Hwf Hr) as (line & Hl & Hlen).
  destruct Hwf as [Hlen' _]. unfold len.
  rewrite py_index_in by lia. rewrite Hl. rewrite py_index_in by lia.
  do 2 f_equal. f_equal. unfold grid_set.
  apply list_eq. intros i. rewrite list_lookup_alter, list_lookup_insert.
  destruct (decide (Z.to_nat r = i)); subst.
  - rewrite Hl. simpl. rewrite decide_True; [done|].
    split; [done|]. apply lookup_lt_Some in Hl. done.
  - case_decide as D; [|done]. destruct D; done.
Qed.

Lemma getitem_in n st g r c :
  modules st = Some g -> wf_grid n g -> in_grid n r c ->
  exists v, cell_at g r c = Some v /\ getitem r c st = Ret v st.
Proof.
  intros Hm Hwf [Hr Hc]. unfold getitem, cell_at. rewrite Hm.
  destruct (wf_grid_lookup n g r Hwf Hr) as (line & Hl & Hlen).
  destruct Hwf as [Hlen' _]. unfold len.
  rewrite py_index_in by lia. rewrite Hl. rewrite py_index_in by lia.
  destruct (lookup_lt_is_Some_2 line (Z.to_nat c)) as [v Hv]; [lia|].
  exists v. rewrite Hv. done.
Qed.

Lemma bind_ret {A B} (m : method A) (k : A -> method B) st a st' :
  m st = Ret a st' -> (x <- m ;; k x) st = k a st'.
Proof. intros E. unfold bind. by rewrite E. Qed.

Lemma bind_raise {A B} (m : method A) (k : A -> method B) st e st' :
  m st = Raise e st' -> (x <- m ;; k x) st = Raise e st'.
Proof. intros E. unfold bind. by rewrite E. Qed.

(** ** UTF-8 *)

(** The encoder on one-, two-, three- and four-byte code points, and on a
    lone surrogate, which [str.encode] rejects. *)
Example utf8_encode_samples :
  utf8_encode [65; 233; 8364; 128512] = Some [65; 195; 169; 226; 130; 172; 240; 159; 152; 128]
  /\ utf8_encode [55296] = None.
Proof. split; reflexivity. Qed.

(** ** The function-module classifier *)

Ltac bool_cases :=
  repeat match goal with
    | |- context [?a <? ?b] => destruct (Z.ltb_spec a b)
    | |- context [?a <=? ?b] => destruct (Z.leb_spec a b)
    | |- context [?a =? ?b] => destruct (Z.eqb_spec a b)
    end.

(** C2, as the code has it: on the grid of a version 1..5 the classifier
    answers True exactly on the 9x9 top-left corner, the top-right corner of
    rows 0-8 and the last 8 columns, the bottom-left corner of the last 8
    rows and columns 0-8, row 6, column 6 and, beyond version 1, the
    dark-module position (4*version+9, 8). *)
Theorem C2_is_function_module_regions (st : QRGenerator) (r c : Z) :
  1 <= version st <= 5 ->
  module_count st = 4 * version st + 17 ->
  in_grid (module_count st) r c ->
  _is_function_module st r c = true <->
    reserved_corners (module_count st) r c \/ r = 6 \/ c = 6
    \/ (1 < version st /\ r = 4 * version st + 9 /\ c = 8).
Proof.
  intros Hv Hn [Hr Hc]. unfold _is_function_module, reserved_corners.
  rewrite Hn in *. bool_cases; simpl; split; (done || lia).
Qed.

Lemma C2_is_function_module_regions_witness :
  _is_function_module (mkQR 1 H None 21 []) 0 13 = true <->
    reserved_corners 21 0 13 \/ 0 = 6 \/ 13 = 6 \/ (1 < 1 /\ 0 = 4 * 1 + 9 /\ 13 = 8).
Proof.
  apply (C2_is_function_module_regions (mkQR 1 H None 21 []) 0 13).
  - simpl; lia.
  - reflexivity.
  - unfold in_grid; simpl; lia.
Defined.

(** C2 as stated fails: in the version 1 symbol built from "A", the
    position (0, 12) lies in the 9x9 neighbourhood of the top-right corner
    (column size-9), and the classifier answers False there. *)
Lemma C2_column_size_minus_9_not_function :
  exists st, generate H (str "A") = Ret tt st
    /\ version st = 1 /\ module_count st = 21
    /\ nine_by_nine_corners (module_count st) 0 12
    /\ _is_function_module st 0 12 = false.
Proof.
  eexists. split; [vm_compute; reflexivity|].
  repeat split; unfold nine_by_nine_corners; simpl; lia.
Qed.

(** ** The bit stream *)

Lemma bit_of x i : 0 <= i -> Z.land (Z.shiftr x i) 1 = x / 2 ^ i mod 2.
Proof.
  intros Hi. rewrite Z.shiftr_div_pow2 by done.
  change 1 with (Z.ones 1). rewrite Z.land_ones by lia. reflexivity.
Qed.

Lemma bits8_msb_first x : bits8 x = msb_first8 x.
Proof.
  unfold bits8. change (py_range3 7 (-1) (-1)) with [7; 6; 5; 4; 3; 2; 1; 0].
  unfold msb_first8. simpl. rewrite !bit_of by lia.
  rewrite Z.div_1_r. reflexivity.
Qed.

Lemma foldl_bits8 (bs : list Z) (acc : list Z) :
  foldl (fun acc byte => acc ++ bits8 byte) acc bs = acc ++ concat (msb_first8 <$> bs).
Proof.
  revert acc. induction bs as [|b bs IH]; intros acc; simpl.
  - by rewrite app_nil_r.
  - rewrite IH, bits8_msb_first, <- app_assoc. reflexivity.
Qed.

Lemma length_concat_msb_first (bs : list Z) :
  len (concat (msb_first8 <$> bs)) = 8 * len bs.
Proof.
  unfold len. induction bs as [|b bs IH]; [done|].
  rewrite fmap_cons. simpl. rewrite !Nat2Z.inj_succ in *. lia.
Qed.

Lemma msb_first8_value x :
  foldl (fun acc b => 2 * acc + b) 0 (msb_first8 x) = x mod 256.
Proof.
  unfold msb_first8. simpl. Z.div_mod_to_equations. lia.
Qed.

Lemma _encode_data_spec st payload_bytes :
  utf8_encode (data st) = Some payload_bytes ->
  _encode_data st = Ret (bit_stream payload_bytes) st.
Proof.
  intros Henc. unfold _encode_data, bind, self, ret.
  rewrite Henc. rewrite foldl_bits8, bits8_msb_first.
  unfold bit_stream. by rewrite <- app_assoc.
Qed.

Lemma payload_stages_stream st payload_bytes :
  utf8_encode (data st) = Some payload_bytes ->
  payload_stages st = (_place_data (bit_stream payload_bytes) ;; _apply_mask) st.
Proof.
  intros Henc. unfold payload_stages.
  by rewrite (bind_ret _ _ _ _ _ (_encode_data_spec st payload_bytes Henc)).
Qed.



(** ** Querying a module *)

(** C10: on an object whose matrix is square of side [module_count] (or
    not allocated, with [module_count = 0]), [is_dark] returns for every pair
    of integers, leaving the object as it is: the stored module inside the
    grid, False outside. *)
Theorem C10_is_dark_total (st : QRGenerator) (row col : Z) :
  grid_ok st ->
  exists v, is_dark row col st = Ret v st
    /\ (in_grid (module_count st) row col ->
          exists g, modules st = Some g /\ cell_at g row col = Some v)
    /\ (~ in_grid (module_count st) row col -> v = PyBool false).
Proof.
  intros Hok. unfold is_dark, bind, self, grid_ok, in_grid in *.
  destruct ((0 <=? row) && (row <? module_count st)
            && ((0 <=? col) && (col <? module_count st))) eqn:E.
  - assert (in_grid (module_count st) row col) as Hin by (unfold in_grid; lia).
    destruct (modules st) as [g|] eqn:Hm; [|unfold in_grid in Hin; lia].
    destruct (getitem_in _ st g row col Hm Hok Hin) as (v & Hv & Hget).
    exists v. split; [done|]. split; [|done]. intros _. by exists g.
  - exists (PyBool false). split; [done|]. split; [lia|done].
Qed.

Lemma C10_is_dark_total_witness :
  exists v, is_dark (-1) 25 hello_world_symbol = Ret v hello_world_symbol
    /\ (in_grid (module_count hello_world_symbol) (-1) 25 ->
          exists g, modules hello_world_symbol = Some g
                    /\ cell_at g (-1) 25 = Some v)
    /\ (~ in_grid (module_count hello_world_symbol) (-1) 25 -> v = PyBool false).
Proof.
  apply (C10_is_dark_total hello_world_symbol (-1) 25).
  refine (bool_decide_eq_true_1 _ _). vm_compute. reflexivity.
Defined.

(** Inside the grid of the same symbol the stored module comes back: the
    top-left module of the finder pattern is dark. *)
Example is_dark_top_left :
  is_dark 0 0 hello_world_symbol = Ret (PyBool true) hello_world_symbol.
Proof. vm_compute. reflexivity. Qed.

(** ** Loops *)

Lemma for_app {A} (l1 l2 : list A) body st :
  for_ (l1 ++ l2) body st = (for_ l1 body ;; for_ l2 body) st.
Proof.
  revert st. induction l1 as [|x l1 IH]; intros st; simpl; [done|].
  unfold bind in *. destruct (body x st); [apply IH|done].
Qed.

Lemma for_fmap {A B} (f : A -> B) (l : list A) body st :
  for_ (f <$> l) body st = for_ l (fun x => body (f x)) st.
Proof.
  revert st. induction l as [|x l IH]; intros st; simpl; [done|].
  unfold bind. destruct (body (f x) st); [apply IH|done].
Qed.

Lemma for_acc_app {A S} (l1 l2 : list A) (acc : S) body st :
  for_acc (l1 ++ l2) acc body st
  = (acc' <- for_acc l1 acc body ;; for_acc l2 acc' body) st.
Proof.
  revert acc st. induction l1 as [|x l1 IH]; intros acc st; simpl; [done|].
  unfold bind in *. destruct (body x acc st); [apply IH|done].
Qed.

Lemma for_nested (rows cols : list Z) (body : Z * Z -> method unit) st :
  for_ rows (fun r => for_ cols (fun c => body (r, c))) st
  = for_ (positions rows cols) body st.
Proof.
  revert st. induction rows as [|r rows IH]; intros st; simpl; [done|].
  rewrite for_app. unfold bind. rewrite for_fmap.
  destruct (for_ cols _ st); [apply IH|done].
Qed.

Lemma elem_of_positions rows cols r c :
  (r, c) ∈ positions rows cols <-> r ∈ rows /\ c ∈ cols.
Proof.
  induction rows as [|r0 rows IH]; simpl.
  - split; [intros Hin; inversion Hin|intros [Hin _]; inversion Hin].
  - rewrite elem_of_app, list_elem_of_fmap, IH, elem_of_cons. split.
    + intros [(c0 & E & Hc0)|[Hr Hc]]; [simplify_eq; auto|auto].
    + intros [[->|Hr] Hc]; [left; eauto|right; auto].
Qed.

Lemma NoDup_positions rows cols :
  NoDup rows -> NoDup cols -> NoDup (positions rows cols).
Proof.
  intros Hrows Hcols. induction Hrows as [|r rows Hr Hrows IH]; simpl.
  - constructor.
  - apply NoDup_app. split; [|split; [|done]].
    + apply NoDup_fmap_2_strong; [|done]. intros ? ? _ _ ?; by simplify_eq.
    + intros [r' c'] Hin Hin'. apply list_elem_of_fmap in Hin as (c0 & E & _).
      simplify_eq. apply elem_of_positions in Hin' as [Hin' _]. done.
Qed.

Lemma elem_of_py_range n i : i ∈ py_range n <-> 0 <= i < n.
Proof. unfold py_range, py_range2. rewrite elem_of_seqZ. lia. Qed.

Lemma elem_of_grid_positions n r c :
  (r, c) ∈ positions (py_range n) (py_range n) <-> in_grid n r c.
Proof. rewrite elem_of_positions, !elem_of_py_range. reflexivity. Qed.

(** A loop over distinct positions of the grid whose step at [p] replaces
    the module at [p] by [f p] of it, and touches nothing else of the object
    [st0], replaces exactly the modules at the positions of the list. *)
Lemma for_pointwise (n : Z) (st0 : QRGenerator) (f : Z * Z -> cell -> cell)
    (step : Z * Z -> method unit) (ps : list (Z * Z)) :
  NoDup ps ->
  (forall p, p ∈ ps -> in_grid n p.1 p.2) ->
  (forall p g v, p ∈ ps -> wf_grid n g -> cell_at g p.1 p.2 = Some v ->
     step p (with_modules (Some g) st0)
     = Ret tt (with_modules (Some (grid_set g p.1 p.2 (f p v))) st0)) ->
  forall g, wf_grid n g ->
  exists g', for_ ps step (with_modules (Some g) st0)
             = Ret tt (with_modules (Some g') st0)
    /\ wf_grid n g'
    /\ forall r c, in_grid n r c ->
         cell_at g' r c = if decide ((r, c) ∈ ps) then f (r, c) <$> cell_at g r c
                          else cell_at g r c.
Proof.
  intros Hnd. induction Hnd as [|p ps Hp Hnd IH]; intros Hin Hstep g Hwf.
  - exists g. split; [done|]. split; [done|]. intros r c _.
    rewrite decide_False; [done|]. intros Hx; inversion Hx.
  - assert (in_grid n p.1 p.2) as Hpin by (apply Hin; left).
    destruct (cell_at_in n g _ _ Hwf Hpin) as [v Hv].
    destruct (IH (fun q Hq => Hin q (list_elem_of_further _ _ _ Hq))
                (fun q g v Hq => Hstep q g v (list_elem_of_further _ _ _ Hq))
                (grid_set g p.1 p.2 (f p v)) (grid_set_wf _ _ _ _ _ Hwf))
      as (g' & Hrun & Hwf' & Hcells).
    exists g'. split; [|split; [done|]].
    + simpl. erewrite bind_ret; [exact Hrun|]. apply Hstep; [left|done|done].
    + intros r c Hrc. rewrite (Hcells r c Hrc).
      destruct Hrc as [Hr Hc].
      rewrite (grid_set_cell_at n) by (done || lia).
      destruct p as [pr pc]; simpl in *.
      destruct (decide (r = pr /\ c = pc)) as [[-> ->]|Hne].
      * rewrite decide_False by done. rewrite decide_True by left.
        by rewrite Hv.
      * destruct (decide ((r, c) ∈ ps)) as [Hps|Hps].
        -- rewrite decide_True; [done|]. by right.
        -- rewrite decide_False; [done|]. rewrite elem_of_cons.
           intros [E|?]; [|done]. simplify_eq. by apply Hne.
Qed.

(** ** Masking *)

Lemma _apply_mask_positions st :
  _apply_mask st
  = for_ (positions (py_range (module_count st)) (py_range (module_count st)))
      mask_at st.
Proof. exact (for_nested _ _ mask_at st). Qed.

Lemma grid_set_same g r c v :
  cell_at g r c = Some v -> grid_set g r c v = g.
Proof.
  unfold cell_at, grid_set. intros Hc.
  destruct (g !! Z.to_nat r) as [line|] eqn:Hl; [|done].
  apply list_eq. intros i. rewrite list_lookup_alter. case_decide; [|done].
  subst. rewrite Hl. simpl. by rewrite list_insert_id.
Qed.

Lemma mask_at_spec n st0 p g v :
  module_count st0 = n -> in_grid n p.1 p.2 -> wf_grid n g ->
  cell_at g p.1 p.2 = Some v ->
  mask_at p (with_modules (Some g) st0)
  = Ret tt (with_modules (Some (grid_set g p.1 p.2 (mask_value st0 p v))) st0).
Proof.
  intros Hn Hin Hwf Hv. unfold mask_at, mask_value, masked, bind, self, when.
  change (_is_function_module (with_modules (Some g) st0) p.1 p.2)
    with (_is_function_module st0 p.1 p.2).
  destruct (_is_function_module st0 p.1 p.2); simpl.
  { rewrite (grid_set_same _ _ _ _ Hv). reflexivity. }
  destruct ((p.1 + p.2) mod 2 =? 0).
  - destruct (getitem_in n (with_modules (Some g) st0) g p.1 p.2 eq_refl Hwf Hin)
      as (v' & Hv' & Hget).
    rewrite Hget. assert (v' = v) by congruence. subst v'.
    by rewrite (setitem_in n _ g).
  - rewrite (grid_set_same _ _ _ _ Hv). reflexivity.
Qed.

(** What one application of the mask does to a square grid. *)
Lemma _apply_mask_spec st g :
  modules st = Some g -> wf_grid (module_count st) g ->
  exists g', _apply_mask st = Ret tt (with_modules (Some g') st)
    /\ wf_grid (module_count st) g'
    /\ forall r c, in_grid (module_count st) r c ->
         cell_at g' r c = mask_value st (r, c) <$> cell_at g r c.
Proof.
  intros Hm Hwf. rewrite _apply_mask_positions.
  destruct (for_pointwise (module_count st) st (mask_value st) mask_at
              (positions (py_range (module_count st)) (py_range (module_count st))))
    with (g := g) as (g' & Hrun & Hwf' & Hcells); try done.
  - apply NoDup_positions; apply NoDup_seqZ.
  - intros [r c] Hp. by apply elem_of_grid_positions.
  - intros [r c] g0 v Hp Hwf0 Hv. apply (mask_at_spec (module_count st)); try done.
    by apply elem_of_grid_positions.
  - exists g'. rewrite (with_modules_same st g Hm) in Hrun.
    split; [done|]. split; [done|]. intros r c Hrc.
    rewrite (Hcells r c Hrc). rewrite decide_True; [done|].
    by apply elem_of_grid_positions.
Qed.

Lemma grid_eq_cells n g g' :
  wf_grid n g -> wf_grid n g' ->
  (forall r c v w, in_grid n r c -> cell_at g r c = Some v ->
     cell_at g' r c = Some w -> py_eq v w = true) ->
  grid_eq g g'.
Proof.
  intros [Hl Hr] [Hl' Hr'] Hcells.
  apply Forall2_same_length_lookup_2; [congruence|].
  intros i line line' Hi Hi'.
  pose proof (Forall_lookup_1 _ _ _ _ Hr Hi) as Hlen. simpl in Hlen.
  pose proof (Forall_lookup_1 _ _ _ _ Hr' Hi') as Hlen'. simpl in Hlen'.
  apply Forall2_same_length_lookup_2; [congruence|].
  intros j v w Hj Hj'.
  apply lookup_lt_Some in Hi as Hilt. apply lookup_lt_Some in Hj as Hjlt.
  apply (Hcells (Z.of_nat i) (Z.of_nat j)).
  - unfold in_grid. lia.
  - unfold cell_at. rewrite !Nat2Z.id, Hi. done.
  - unfold cell_at. rewrite !Nat2Z.id, Hi'. done.
Qed.

Lemma py_not_involutive v :
  is_module_state v -> py_eq (py_not (py_not v)) v = true.
Proof.
  unfold py_not, py_eq. destruct v as [[]|z]; simpl; try done.
  intros [-> | ->]; reflexivity.
Qed.

Lemma cell_at_state g r c v :
  module_states g -> cell_at g r c = Some v -> is_module_state v.
Proof.
  unfold module_states, cell_at. intros Hg Hc.
  destruct (g !! Z.to_nat r) as [line|] eqn:Hl; [|done].
  pose proof (Forall_lookup_1 _ _ _ _ Hg Hl) as Hline. simpl in Hline.
  by eapply (Forall_lookup_1 _ _ _ _ Hline Hc).
Qed.

(** C5: on every square grid of module states, the mask applied twice
    gives back a grid equal to the original. The first application toggles
    the non-function modules with (row + col) mod 2 = 0 and changes no other
    module; the second toggles the same modules back. *)
Theorem C5_mask_twice (st : QRGenerator) (g : grid) :
  modules st = Some g ->
  wf_grid (module_count st) g ->
  module_states g ->
  exists g1 g2,
    _apply_mask st = Ret tt (with_modules (Some g1) st)
    /\ _apply_mask (with_modules (Some g1) st) = Ret tt (with_modules (Some g2) st)
    /\ grid_eq g2 g
    /\ forall r c, in_grid (module_count st) r c ->
         exists v, cell_at g r c = Some v
           /\ if negb (_is_function_module st r c) && ((r + c) mod 2 =? 0)
              then cell_at g1 r c = Some (py_not v)
                   /\ cell_at g2 r c = Some (py_not (py_not v))
                   /\ truthy (py_not (py_not v)) = truthy v
              else cell_at g1 r c = Some v /\ cell_at g2 r c = Some v.
Proof.
  intros Hm Hwf Hst.
  destruct (_apply_mask_spec st g Hm Hwf) as (g1 & Hrun1 & Hwf1 & Hc1).
  destruct (_apply_mask_spec (with_modules (Some g1) st) g1 eq_refl Hwf1)
    as (g2 & Hrun2 & Hwf2 & Hc2).
  change (module_count (with_modules (Some g1) st)) with (module_count st) in *.
  assert (forall r c, in_grid (module_count st) r c ->
            exists v, cell_at g r c = Some v
              /\ cell_at g1 r c = Some (mask_value st (r, c) v)
              /\ cell_at g2 r c = Some (mask_value st (r, c) (mask_value st (r, c) v)))
    as Hcells.
  { intros r c Hrc. destruct (cell_at_in _ g r c Hwf Hrc) as [v Hv].
    exists v. split; [done|]. rewrite (Hc2 r c Hrc), (Hc1 r c Hrc), Hv. done. }
  exists g1, g2. split; [done|]. split; [exact Hrun2|]. split.
  - apply (grid_eq_cells (module_count st)); [done|done|].
    intros r c v w Hrc Hv Hw. destruct (Hcells r c Hrc) as (v0 & Hv0 & _ & Hv2).
    assert (v = mask_value st (r, c) (mask_value st (r, c) v0)) by congruence.
    assert (w = v0) by congruence. subst v w.
    pose proof (cell_at_state _ _ _ _ Hst Hv0) as Hs.
    unfold mask_value. destruct (masked st (r, c).1 (r, c).2).
    + by apply py_not_involutive.
    + unfold py_eq. apply Z.eqb_refl.
  - intros r c Hrc. destruct (Hcells r c Hrc) as (v & Hv & Hv1 & Hv2).
    exists v. split; [done|]. unfold mask_value, masked in Hv1, Hv2. simpl in *.
    destruct (negb (_is_function_module st r c) && ((r + c) mod 2 =? 0)).
    + split; [done|]. split; [done|]. unfold py_not. simpl. by rewrite negb_involutive.
    + done.
Qed.

Lemma C5_mask_twice_witness :
  exists g1 g2,
    _apply_mask hello_world_symbol
      = Ret tt (with_modules (Some g1) hello_world_symbol)
    /\ _apply_mask (with_modules (Some g1) hello_world_symbol)
       = Ret tt (with_modules (Some g2) hello_world_symbol)
    /\ grid_eq g2 (default [] (modules hello_world_symbol))
    /\ forall r c, in_grid (module_count hello_world_symbol) r c ->
         exists v, cell_at (default [] (modules hello_world_symbol)) r c = Some v
           /\ if negb (_is_function_module hello_world_symbol r c)
                 && ((r + c) mod 2 =? 0)
              then cell_at g1 r c = Some (py_not v)
                   /\ cell_at g2 r c = Some (py_not (py_not v))
                   /\ truthy (py_not (py_not v)) = truthy v
              else cell_at g1 r c = Some v /\ cell_at g2 r c = Some v.
Proof.
  apply (C5_mask_twice hello_world_symbol (default [] (modules hello_world_symbol))).
  - vm_compute. reflexivity.
  - refine (bool_decide_eq_true_1 _ _). vm_compute. reflexivity.
  - refine (bool_decide_eq_true_1 _ _). vm_compute. reflexivity.
Defined.

(** ** Stages that only write modules *)

Section Keeps.

(** The object apart from its matrix, and what is known of the matrix. *)
Context (st0 : QRGenerator) (I : grid -> Prop).

Lemma keeps_ret {A} (Q : A -> Prop) a : Q a -> keeps st0 I Q (ret a).
Proof. intros Ha g Hg. by exists a, g. Qed.

Lemma keeps_bind {A B} (Q : A -> Prop) (R : B -> Prop) m k :
  keeps st0 I Q m -> (forall a, Q a -> keeps st0 I R (k a)) -> keeps st0 I R (x <- m ;; k x).
Proof.
  intros Hm Hk g Hg. destruct (Hm g Hg) as (a & g1 & E1 & Hg1 & Ha).
  destruct (Hk a Ha g1 Hg1) as (b & g2 & E2 & Hg2 & Hb).
  exists b, g2. split; [|done]. by rewrite (bind_ret _ _ _ _ _ E1).
Qed.

Lemma keeps_self {A} (Q : A -> Prop) (k : QRGenerator -> method A) :
  (forall g, I g -> keeps st0 I Q (k (with_modules (Some g) st0))) ->
  keeps st0 I Q (st <- self ;; k st).
Proof. intros Hk g Hg. exact (Hk g Hg g Hg). Qed.

Lemma keeps_for_acc {A S} (Q : S -> Prop) (l : list A) body :
  (forall x acc, x ∈ l -> Q acc -> keeps st0 I Q (body x acc)) ->
  forall acc, Q acc -> keeps st0 I Q (for_acc l acc body).
Proof.
  induction l as [|x l IH]; intros Hbody acc Hacc; simpl.
  - by apply keeps_ret.
  - apply (keeps_bind Q); [apply Hbody; [left|done]|].
    intros acc' Hacc'. apply IH; [|done].
    intros y a Hy. apply Hbody. by right.
Qed.

Lemma keeps_for {A} (l : list A) body :
  (forall x, x ∈ l -> keeps st0 I (fun _ => True) (body x)) ->
  keeps st0 I (fun _ => True) (for_ l body).
Proof.
  induction l as [|x l IH]; intros Hbody; simpl.
  - by apply keeps_ret.
  - apply (keeps_bind (fun _ => True)); [apply Hbody; left|].
    intros _ _. apply IH. intros y Hy. apply Hbody. by right.
Qed.

Lemma keeps_weaken {A} (Q R : A -> Prop) m :
  (forall a, Q a -> R a) -> keeps st0 I Q m -> keeps st0 I R m.
Proof.
  intros HQR Hm g Hg. destruct (Hm g Hg) as (a & g' & E & Hg' & Ha).
  exists a, g'. auto.
Qed.

Lemma keeps_setitem n r c v :
  in_grid n r c ->
  (forall g, I g -> wf_grid n g /\ I (grid_set g r c v)) ->
  keeps st0 I (fun _ => True) (setitem r c v).
Proof.
  intros Hin HI g Hg. destruct (HI g Hg) as [Hwf Hg'].
  exists tt, (grid_set g r c v). split; [|done].
  by rewrite (setitem_in n _ g).
Qed.

End Keeps.

(** ** Data placement writes non-function modules only *)

Lemma py_getitem_in {A} (l : list A) i :
  0 <= i < len l -> exists x, py_getitem l i = Some x /\ x ∈ l.
Proof.
  intros Hi. unfold py_getitem. rewrite py_index_in by done.
  destruct (lookup_lt_is_Some_2 l (Z.to_nat i)) as [x Hx]; [unfold len in Hi; lia|].
  exists x. split; [done|]. by eapply list_elem_of_lookup_2.
Qed.

Lemma elem_of_column_pairs n col :
  col ∈ py_range3 (n - 1) 0 (-2) -> 1 <= col <= n - 1.
Proof.
  unfold py_range3. simpl. rewrite list_elem_of_fmap.
  intros (k & -> & Hk). apply elem_of_seqZ in Hk.
  revert Hk. Z.div_mod_to_equations. lia.
Qed.

Lemma _place_data_visit_keeps st0 g0 data direction col i c b :
  Forall is_bit data ->
  0 <= i < module_count st0 -> 0 <= col - c < module_count st0 -> 0 <= b ->
  keeps st0 (placed_over st0 g0) (fun b' => 0 <= b')
    (_place_data_visit data direction col i c b).
Proof.
  intros Hbits Hi Hc Hb. unfold _place_data_visit. apply keeps_self.
  intros g Hg.
  change (module_count (with_modules (Some g) st0)) with (module_count st0).
  change (_is_function_module (with_modules (Some g) st0))
    with (_is_function_module st0).
  set (n := module_count st0) in *.
  set (row := if direction =? -1 then n - 1 - i mod n else i mod n).
  assert (0 <= row < n) as Hrow.
  { subst row. rewrite Z.mod_small by lia. destruct (direction =? -1); lia. }
  destruct (_is_function_module st0 row (col - c)) eqn:Hf; simpl.
  { by apply keeps_ret. }
  destruct (b <? len data) eqn:Hlt; [|by apply keeps_ret].
  destruct (py_getitem_in data b) as (x & -> & Hx); [lia|].
  apply (keeps_bind _ _ (fun _ => True)); [|intros _ _; apply keeps_ret; lia].
  apply (keeps_setitem _ _ n); [done|].
  intros g1 (Hwf & Hst & Hframe). split; [done|].
  split; [by apply grid_set_wf|]. split.
  - apply grid_set_states; [done|]. rewrite Forall_forall in Hbits.
    exact (Hbits x Hx).
  - intros r c' Hrc Hfun. rewrite <- (Hframe r c' Hrc Hfun).
    destruct Hrc as [Hr Hc']. rewrite (grid_set_cell_at n) by (done || lia).
    rewrite decide_False; [done|]. intros [-> ->]. congruence.
Qed.

Lemma _place_data_keeps st0 g0 data :
  Forall is_bit data ->
  keeps st0 (placed_over st0 g0) (fun _ => True) (_place_data data).
Proof.
  intros Hbits. unfold _place_data. apply keeps_self. intros g Hg.
  change (module_count (with_modules (Some g) st0)) with (module_count st0).
  apply (keeps_bind _ _ (fun loc => 0 <= bit_index loc));
    [|intros; by apply keeps_ret].
  apply (keeps_for_acc _ _ (fun loc => 0 <= bit_index loc)); [|simpl; lia].
  intros col loc Hcol Hloc. apply elem_of_column_pairs in Hcol.
  apply (keeps_for_acc _ _ (fun loc => 0 <= bit_index loc)); [|done].
  intros i loc' Hi Hloc'. apply elem_of_py_range in Hi.
  apply (keeps_bind _ _ (fun b' => 0 <= b')); [|intros; by apply keeps_ret].
  apply (keeps_for_acc _ _ (fun b' => 0 <= b')); [|done].
  intros c b Hc Hb. apply elem_of_py_range in Hc.
  apply _place_data_visit_keeps; try done.
  destruct (col =? 6) eqn:E; lia.
Qed.

Lemma _place_data_spec st0 g0 data :
  wf_grid (module_count st0) g0 -> module_states g0 -> Forall is_bit data ->
  exists g, _place_data data (with_modules (Some g0) st0)
            = Ret tt (with_modules (Some g) st0)
    /\ placed_over st0 g0 g.
Proof.
  intros Hwf Hst Hbits.
  destruct (_place_data_keeps st0 g0 data Hbits g0) as ([] & g & E & Hg & _).
  { split; [done|]. split; done. }
  by exists g.
Qed.

(** ** Version selection *)

Ltac version_cases v' H :=
  assert (v' = 1 \/ v' = 2 \/ v' = 3 \/ v' = 4 \/ v' = 5) as H by lia;
  destruct H as [H|[H|[H|[H|H]]]]; subst v'.

Lemma _optimize_version_spec st payload_bytes :
  utf8_encode (data st) = Some payload_bytes ->
  exists v, _optimize_version st = Ret tt (with_version v st)
    /\ selected_version (error_correction st) (len payload_bytes) v.
Proof.
  intros Henc. unfold _optimize_version, bind, self. rewrite Henc.
  change (py_range2 1 6) with [1; 2; 3; 4; 5].
  set (n := len payload_bytes). unfold selected_version.
  destruct (error_correction st); simpl;
    repeat match goal with
      | |- context [?a <=? ?b] => destruct (Z.leb_spec a b)
      end;
    eexists; (split; [reflexivity|]); (split; [lia|]);
    first [ left; split; [unfold capacity; simpl; lia|];
            intros v' Hv'; (assert (v' = 1 \/ v' = 2 \/ v' = 3 \/ v' = 4) as Hc by lia);
            destruct Hc as [Hc|[Hc|[Hc|Hc]]]; subst v'; unfold capacity; simpl; lia
          | right; split; [reflexivity|];
            intros v' Hv'; version_cases v' Hc; unfold capacity; simpl; lia ].
Qed.

Lemma _optimize_version_unencodable st :
  utf8_encode (data st) = None -> _optimize_version st = Raise UnicodeEncodeError st.
Proof. intros Henc. unfold _optimize_version, bind, self. by rewrite Henc. Qed.

(** ** The stages of [make] *)

Lemma make_matrix_split st entry :
  version_info (version st) = Some entry ->
  make_matrix st = (function_pattern_stages entry ;; payload_stages) st.
Proof.
  intros Hv. unfold make_matrix, function_pattern_stages, payload_stages.
  unfold bind at 1. unfold self at 1. rewrite Hv.
  unfold bind, update.
  repeat match goal with
    | |- context [match ?m ?s with Ret _ _ => _ | Raise _ _ => _ end] =>
        lazymatch m with
        | _encode_data => fail
        | _ => destruct (m s); try reflexivity
        end
    end.
Qed.

Lemma function_pattern_stages_eval v lvl m n d entry :
  1 <= v <= 5 -> version_info v = Some entry ->
  function_pattern_stages entry (mkQR v lvl m n d)
  = Ret tt (mkQR v lvl (Some (function_patterns v lvl)) (4 * v + 17) d).
Proof.
  intros Hv He. version_cases v Hc; vm_compute in He; simplify_eq;
    destruct lvl; vm_compute; reflexivity.
Qed.

Lemma function_patterns_wf v lvl :
  1 <= v <= 5 ->
  wf_grid (4 * v + 17) (function_patterns v lvl)
  /\ module_states (function_patterns v lvl).
Proof.
  intros Hv. version_cases v Hc; destruct lvl;
    (split; refine (bool_decide_eq_true_1 _ _); vm_compute; reflexivity).
Qed.

Lemma msb_first8_bits x : Forall is_bit (msb_first8 x).
Proof.
  unfold msb_first8, is_bit.
  repeat (constructor; [pose proof (Z.mod_pos_bound (x / 128) 2);
                        pose proof (Z.mod_pos_bound (x / 64) 2);
                        pose proof (Z.mod_pos_bound (x / 32) 2);
                        pose proof (Z.mod_pos_bound (x / 16) 2);
                        pose proof (Z.mod_pos_bound (x / 8) 2);
                        pose proof (Z.mod_pos_bound (x / 4) 2);
                        pose proof (Z.mod_pos_bound (x / 2) 2);
                        pose proof (Z.mod_pos_bound x 2); lia|]).
  constructor.
Qed.

Lemma bit_stream_bits payload_bytes : Forall is_bit (bit_stream payload_bytes).
Proof.
  unfold bit_stream. rewrite !Forall_app. split; [|split].
  - unfold is_bit. repeat constructor; lia.
  - apply msb_first8_bits.
  - induction payload_bytes as [|b bs IH]; simpl; [constructor|].
    change (Forall is_bit (msb_first8 b ++ concat (msb_first8 <$> bs))).
    rewrite Forall_app. split; [apply msb_first8_bits|done].
Qed.

Lemma module_states_cells n g :
  wf_grid n g ->
  (forall r c v, in_grid n r c -> cell_at g r c = Some v -> is_module_state v) ->
  module_states g.
Proof.
  intros [Hlen Hrows] Hcells. apply Forall_lookup_2. intros i line Hi.
  pose proof (Forall_lookup_1 _ _ _ _ Hrows Hi) as Hl. simpl in Hl.
  apply Forall_lookup_2. intros j v Hj.
  apply lookup_lt_Some in Hi as Hilt. apply lookup_lt_Some in Hj as Hjlt.
  apply (Hcells (Z.of_nat i) (Z.of_nat j)).
  - unfold in_grid. lia.
  - unfold cell_at. by rewrite !Nat2Z.id, Hi.
Qed.

Lemma mask_value_state st p v : is_module_state v -> is_module_state (mask_value st p v).
Proof. unfold mask_value. destruct (masked _ _ _); [done|auto]. Qed.

(** The payload stages on a matrix [g0]: they place the bit stream of the
    payload, return, and leave every function module as it was. *)
Lemma payload_stages_spec st0 g0 payload_bytes :
  modules st0 = Some g0 -> wf_grid (module_count st0) g0 -> module_states g0 ->
  utf8_encode (data st0) = Some payload_bytes ->
  payload_stages st0 = (_place_data (bit_stream payload_bytes) ;; _apply_mask) st0
  /\ exists g, payload_stages st0 = Ret tt (with_modules (Some g) st0)
       /\ placed_over st0 g0 g.
Proof.
  intros Hm Hwf Hst Henc.
  pose proof (payload_stages_stream st0 payload_bytes Henc) as Hsplit.
  split; [done|]. rewrite Hsplit.
  destruct (_place_data_spec st0 g0 (bit_stream payload_bytes) Hwf Hst
              (bit_stream_bits _)) as (g1 & Hrun1 & Hwf1 & Hst1 & Hframe1).
  rewrite (with_modules_same st0 g0 Hm) in Hrun1.
  rewrite (bind_ret _ _ _ _ _ Hrun1).
  destruct (_apply_mask_spec (with_modules (Some g1) st0) g1 eq_refl Hwf1)
    as (g2 & Hrun2 & Hwf2 & Hc2).
  change (module_count (with_modules (Some g1) st0)) with (module_count st0) in *.
  exists g2. split; [exact Hrun2|]. split; [done|]. split.
  - apply (module_states_cells (module_count st0)); [done|].
    intros r c v Hrc Hv. rewrite (Hc2 r c Hrc) in Hv.
    destruct (cell_at g1 r c) as [w|] eqn:Hw; simplify_eq/=.
    apply mask_value_state. by eapply cell_at_state.
  - intros r c Hrc Hf. rewrite (Hc2 r c Hrc), <- (Hframe1 r c Hrc Hf).
    unfold mask_value, masked. simpl.
    change (_is_function_module (with_modules (Some g1) st0) r c)
      with (_is_function_module st0 r c). rewrite Hf. simpl.
    by destruct (cell_at g1 r c).
Qed.

(** The allocation of [make] is a square grid of light modules. *)
Lemma new_matrix_wf n : wf_grid n (new_matrix n) /\ module_states (new_matrix n).
Proof.
  unfold wf_grid, module_states, new_matrix, py_range, py_range2. split; [split|].
  - rewrite length_fmap, length_seqZ. f_equal. lia.
  - apply Forall_fmap, Forall_forall. intros i _. simpl.
    rewrite length_fmap, length_seqZ. f_equal. lia.
  - apply Forall_fmap, Forall_forall. intros i _. simpl.
    apply Forall_fmap, Forall_forall. intros j _. exact I.
Qed.

Lemma version_info_size v :
  1 <= v <= 5 -> exists entry, version_info v = Some entry /\ size entry = 4 * v + 17.
Proof. intros Hv. version_cases v Hc; eexists; split; reflexivity. Qed.

(** [make] from the allocation on, for a version 1..5 and an encodable
    payload: it returns with a square matrix of side 4*version+17 whose
    function modules are those of [function_patterns]. *)
Lemma make_matrix_spec v lvl m n d payload_bytes :
  1 <= v <= 5 -> utf8_encode d = Some payload_bytes ->
  exists g, make_matrix (mkQR v lvl m n d) = Ret tt (mkQR v lvl (Some g) (4 * v + 17) d)
    /\ placed_over (mkQR v lvl (Some g) (4 * v + 17) d) (function_patterns v lvl) g.
Proof.
  intros Hv Henc. destruct (version_info_size v Hv) as (entry & He & _).
  rewrite (make_matrix_split (mkQR v lvl m n d) entry He).
  rewrite (bind_ret _ _ _ _ _ (function_pattern_stages_eval v lvl m n d entry Hv He)).
  destruct (function_patterns_wf v lvl Hv) as [Hwf Hst].
  destruct (payload_stages_spec
              (mkQR v lvl (Some (function_patterns v lvl)) (4 * v + 17) d)
              (function_patterns v lvl) payload_bytes eq_refl Hwf Hst Henc)
    as (_ & g & Hrun & Hplaced).
  exists g. split; [exact Hrun|exact Hplaced].
Qed.

Lemma make_nonempty st :
  data st <> [] -> make st = (_optimize_version ;; make_matrix) st.
Proof.
  intros Hne. unfold make, bind at 1, self at 1. by destruct (data st).
Qed.

Lemma make_empty st : data st = [] -> make st = Raise ValueError_no_data st.
Proof. intros Hd. unfold make, bind, self. by rewrite Hd. Qed.

(** [make] on a non-empty encodable payload. *)
Lemma make_spec st payload_bytes :
  data st <> [] -> utf8_encode (data st) = Some payload_bytes ->
  exists v g,
    selected_version (error_correction st) (len payload_bytes) v
    /\ make st = Ret tt (mkQR v (error_correction st) (Some g) (4 * v + 17) (data st))
    /\ placed_over (mkQR v (error_correction st) (Some g) (4 * v + 17) (data st))
         (function_patterns v (error_correction st)) g.
Proof.
  intros Hne Henc.
  destruct (_optimize_version_spec st payload_bytes Henc) as (v & Hopt & Hsel).
  destruct (make_matrix_spec v (error_correction st) (modules st) (module_count st)
              (data st) payload_bytes (proj1 Hsel) Henc) as (g & Hrun & Hplaced).
  exists v, g. split; [done|]. split; [|done].
  rewrite (make_nonempty st Hne), (bind_ret _ _ _ _ _ Hopt). exact Hrun.
Qed.

(** ** Version selection and allocation in [make] *)

(** C1: for every non-empty payload with UTF-8 bytes [payload_bytes],
    [make] returns with the smallest version 1..5 whose capacity at the level
    holds the byte length, version 5 when none does, and with a square
    matrix whose side is the table size of that version, 4*version+17. *)
Theorem C1_make_selects_version (st : QRGenerator) (payload_bytes : list Z) :
  data st <> [] ->
  utf8_encode (data st) = Some payload_bytes ->
  exists st' g entry,
    make st = Ret tt st'
    /\ selected_version (error_correction st) (len payload_bytes) (version st')
    /\ version_info (version st') = Some entry
    /\ module_count st' = size entry
    /\ size entry = 4 * version st' + 17
    /\ modules st' = Some g
    /\ wf_grid (4 * version st' + 17) g.
Proof.
  intros Hne Henc.
  destruct (make_spec st payload_bytes Hne Henc) as (v & g & Hsel & Hrun & Hwf & _).
  destruct (version_info_size v (proj1 Hsel)) as (entry & He & Hsize).
  eexists _, g, entry. split; [exact Hrun|]. simpl. by rewrite Hsize.
Qed.

Lemma C1_make_selects_version_witness :
  exists st' g entry,
    make hello_world = Ret tt st'
    /\ selected_version (error_correction hello_world)
         (len [72; 101; 108; 108; 111; 32; 87; 111; 114; 108; 100]) (version st')
    /\ version_info (version st') = Some entry
    /\ module_count st' = size entry
    /\ size entry = 4 * version st' + 17
    /\ modules st' = Some g
    /\ wf_grid (4 * version st' + 17) g.
Proof.
  apply (C1_make_selects_version hello_world
           [72; 101; 108; 108; 111; 32; 87; 111; 114; 108; 100]).
  - discriminate.
  - reflexivity.
Defined.

(** The scenario of the specification: "Hello World" at level High gives
    version 1 and 21 modules a side. *)
Example hello_world_version_1 :
  exists st', make hello_world = Ret tt st' /\ version st' = 1 /\ module_count st' = 21.
Proof. eexists. split; [vm_compute; reflexivity|]. split; reflexivity. Qed.

(** ** The empty payload *)

(** C6: with an empty payload (also when no data was added) [make] raises
    the no-data error and leaves the object as it was: the version is not
    selected, no matrix is allocated. No other error comes out of [make]
    except the encoding error of [str.encode] on a payload that has no UTF-8
    encoding, which the code does not raise itself. *)
Theorem C6_make_no_payload (st : QRGenerator) :
  (data st = [] -> make st = Raise ValueError_no_data st)
  /\ (forall e st', make st = Raise e st' ->
        (e = ValueError_no_data /\ data st = [] /\ st' = st)
        \/ (e = UnicodeEncodeError /\ data st <> []
            /\ utf8_encode (data st) = None /\ st' = st)).
Proof.
  split; [apply make_empty|]. intros e st' Hraise.
  destruct (decide (data st = [])) as [Hd|Hd].
  - rewrite (make_empty st Hd) in Hraise. left. by simplify_eq.
  - destruct (utf8_encode (data st)) as [payload_bytes|] eqn:Henc.
    + destruct (make_spec st payload_bytes Hd Henc) as (v & g & _ & Hrun & _).
      congruence.
    + rewrite (make_nonempty st Hd) in Hraise.
      rewrite (bind_raise _ _ _ _ _ (_optimize_version_unencodable st Henc)) in Hraise.
      right. by simplify_eq.
Qed.

Lemma C6_make_no_payload_witness :
  make (__init__ 1 H) = Raise ValueError_no_data (__init__ 1 H)
  /\ modules (__init__ 1 H) = None.
Proof.
  split; [|reflexivity].
  apply (proj1 (C6_make_no_payload (__init__ 1 H))). reflexivity.
Defined.

(** ** Corner neighbourhoods across versions *)










(** The same difference between two symbols that [make] itself builds at
    level High: 12 bytes give version 1, 73 bytes give version 2. *)
Example dark_module_differs_through_make :
  exists st1 st2 g1 g2,
    generate H (str "Hello World!") = Ret tt st1
    /\ generate H (replicate 73 65) = Ret tt st2
    /\ version st1 = 1 /\ version st2 = 2
    /\ modules st1 = Some g1 /\ modules st2 = Some g2
    /\ corner_cell 21 g1 BottomLeft 1 8 = Some (PyBool false)
    /\ corner_cell 25 g2 BottomLeft 1 8 = Some (PyBool true).
Proof.
  do 4 eexists. split; [vm_compute; reflexivity|].
  split; [vm_compute; reflexivity|]. repeat split; vm_compute; reflexivity.
Qed.

(** ** Renderers *)

Lemma for_acc_fmap {A B S} (f : A -> B) (l : list A) (acc : S) body st :
  for_acc (f <$> l) acc body st = for_acc l acc (fun x => body (f x)) st.
Proof.
  revert acc st. induction l as [|x l IH]; intros acc st; simpl; [done|].
  unfold bind. destruct (body (f x) acc st); [apply IH|done].
Qed.

Lemma for_acc_nested {S} (rows cols : list Z) (acc : S)
    (body : Z * Z -> S -> method S) st :
  for_acc rows acc (fun r acc => for_acc cols acc (fun c => body (r, c))) st
  = for_acc (positions rows cols) acc body st.
Proof.
  revert acc st. induction rows as [|r rows IH]; intros acc st; simpl; [done|].
  rewrite for_acc_app. unfold bind. rewrite for_acc_fmap.
  destruct (for_acc cols acc _ st); [apply IH|done].
Qed.

(** A loop that leaves the object alone and appends [emit p] to its
    accumulator at every step. *)
Lemma for_acc_emit {A X} (emit : A -> list X) (l : list A)
    (body : A -> list X -> method (list X)) st :
  (forall p acc, p ∈ l -> body p acc st = Ret (acc ++ emit p) st) ->
  forall acc, for_acc l acc body st = Ret (acc ++ concat (emit <$> l)) st.
Proof.
  induction l as [|p l IH]; intros Hbody acc; simpl.
  - by rewrite app_nil_r.
  - rewrite (bind_ret _ _ _ _ _ (Hbody p acc ltac:(left))).
    rewrite IH; [by rewrite <- app_assoc|].
    intros q acc' Hq. apply Hbody. by right.
Qed.

Lemma concat_fmap_fmap {A B C} (f : B -> C) (h : A -> list B) (l : list A) :
  concat ((fun p => f <$> h p) <$> l) = f <$> concat (h <$> l).
Proof.
  induction l as [|p l IH]; simpl; [done|].
  rewrite fmap_app. f_equal. exact IH.
Qed.

Lemma is_finder_footprintb n r c :
  is_finder_image n r c = finder_footprintb n r c
  /\ is_finder_svg n r c = finder_footprintb n r c.
Proof.
  unfold is_finder_image, is_finder_svg, finder_footprintb.
  replace (r <? 7) with (r <=? 6) by (bool_cases; (done || lia)).
  replace (c <? 7) with (c <=? 6) by (bool_cases; (done || lia)).
  done.
Qed.

Lemma finder_footprintb_spec n r c :
  in_grid n r c -> finder_footprintb n r c = true <-> finder_footprint n r c.
Proof.
  intros [Hr Hc]. unfold finder_footprintb, finder_footprint.
  bool_cases; simpl; split; (done || lia).
Qed.

Lemma is_dark_in st g r c :
  modules st = Some g -> wf_grid (module_count st) g ->
  in_grid (module_count st) r c ->
  exists v, cell_at g r c = Some v /\ is_dark r c st = Ret v st.
Proof.
  intros Hm Hwf Hin. pose proof Hin as [Hr Hc].
  destruct (getitem_in _ st g r c Hm Hwf Hin) as (v & Hv & Hget).
  exists v. split; [done|]. unfold is_dark, bind, self.
  destruct (Z.leb_spec 0 r), (Z.ltb_spec r (module_count st)),
    (Z.leb_spec 0 c), (Z.ltb_spec c (module_count st)); try lia. done.
Qed.

Lemma grid_ok_allocated st :
  grid_ok st -> module_count st <> 0 ->
  exists g, modules st = Some g /\ wf_grid (module_count st) g.
Proof.
  unfold grid_ok. intros Hok Hn. destruct (modules st) as [g|]; [by exists g|done].
Qed.

Section RendererSpecs.

Variable getrgb : string -> option (Z * Z * Z).

Lemma create_qr_image_spec st g color marker_shape dot_shape :
  modules st = Some g -> wf_grid (module_count st) g -> module_count st <> 0 ->
  create_qr_image getrgb color marker_shape dot_shape st
  = Ret (draw_call_of (fill_colour getrgb color)
           <$> dark_modules g (module_count st) marker_shape dot_shape) st.
Proof.
  intros Hm Hwf Hn. unfold create_qr_image, get_module_count.
  unfold bind at 1. unfold bind at 1. unfold self at 1, ret at 1.
  destruct (Z.eqb_spec (module_count st) 0) as [|_]; [done|].
  fold (fill_colour getrgb color).
  rewrite (for_acc_nested _ _ []
             (fun p img =>
                dark <- is_dark p.1 p.2 ;;
                if truthy dark then
                  let is_finder := is_finder_image (module_count st) p.1 p.2 in
                  let shape := if is_finder then marker_shape else dot_shape in
                  if String.eqb shape "circle"
                  then ret (img ++ [ellipse p.1 p.2 (fill_colour getrgb color)])
                  else if String.eqb shape "rounded"
                  then ret (img ++ [rounded_rectangle p.1 p.2 (fill_colour getrgb color)])
                  else ret (img ++ [rectangle p.1 p.2 (fill_colour getrgb color)])
                else ret img)).
  rewrite (for_acc_emit
             (fun p : Z * Z =>
                draw_call_of (fill_colour getrgb color) <$>
                match cell_at g p.1 p.2 with
                | Some v =>
                    if truthy v then
                      [(p.1, p.2,
                        shape_of (if finder_footprintb (module_count st) p.1 p.2
                                  then marker_shape else dot_shape))]
                    else []
                | None => []
                end)).
  - simpl. f_equal. unfold dark_modules. apply concat_fmap_fmap.
  - intros [r c] acc Hp. apply elem_of_grid_positions in Hp. simpl.
    destruct (is_dark_in st g r c Hm Hwf Hp) as (v & Hv & Hdark).
    rewrite (bind_ret _ _ _ _ _ Hdark), Hv.
    destruct (truthy v); [|by rewrite app_nil_r].
    rewrite (proj1 (is_finder_footprintb _ r c)). unfold shape_of.
    destruct (String.eqb _ "circle"); [done|].
    destruct (String.eqb _ "rounded"); done.
Qed.

Lemma create_qr_svg_spec st g color marker_shape dot_shape :
  modules st = Some g -> wf_grid (module_count st) g -> module_count st <> 0 ->
  create_qr_svg getrgb color marker_shape dot_shape st
  = Ret (svg_element_of (fill_colour getrgb color)
           <$> dark_modules g (module_count st) marker_shape dot_shape) st.
Proof.
  intros Hm Hwf Hn. unfold create_qr_svg, get_module_count.
  unfold bind at 1. unfold bind at 1. unfold self at 1, ret at 1.
  destruct (Z.eqb_spec (module_count st) 0) as [|_]; [done|].
  fold (fill_colour getrgb color).
  rewrite (for_acc_nested _ _ []
             (fun p svg_content =>
                dark <- is_dark p.1 p.2 ;;
                if truthy dark then
                  let is_finder := is_finder_svg (module_count st) p.1 p.2 in
                  let shape := if is_finder then marker_shape else dot_shape in
                  if String.eqb shape "circle"
                  then ret (svg_content ++ [svg_circle p.1 p.2 (fill_colour getrgb color)])
                  else if String.eqb shape "rounded"
                  then ret (svg_content ++ [svg_rect_rx p.1 p.2 (fill_colour getrgb color)])
                  else ret (svg_content ++ [svg_rect p.1 p.2 (fill_colour getrgb color)])
                else ret svg_content)).
  rewrite (for_acc_emit
             (fun p : Z * Z =>
                svg_element_of (fill_colour getrgb color) <$>
                match cell_at g p.1 p.2 with
                | Some v =>
                    if truthy v then
                      [(p.1, p.2,
                        shape_of (if finder_footprintb (module_count st) p.1 p.2
                                  then marker_shape else dot_shape))]
                    else []
                | None => []
                end)).
  - simpl. f_equal. unfold dark_modules. apply concat_fmap_fmap.
  - intros [r c] acc Hp. apply elem_of_grid_positions in Hp. simpl.
    destruct (is_dark_in st g r c Hm Hwf Hp) as (v & Hv & Hdark).
    rewrite (bind_ret _ _ _ _ _ Hdark), Hv.
    destruct (truthy v); [|by rewrite app_nil_r].
    rewrite (proj2 (is_finder_footprintb _ r c)). unfold shape_of.
    destruct (String.eqb _ "circle"); [done|].
    destruct (String.eqb _ "rounded"); done.
Qed.

End RendererSpecs.

Lemma elem_of_concat {A} (x : A) (ls : list (list A)) :
  x ∈ concat ls <-> exists l, x ∈ l /\ l ∈ ls.
Proof.
  induction ls as [|l0 ls IH]; simpl.
  - split; [intros Hx; inversion Hx|intros (l & _ & Hl); inversion Hl].
  - rewrite elem_of_app, IH. split.
    + intros [Hx|(l & Hx & Hl)]; [exists l0; split; [done|left]|].
      exists l. split; [done|by right].
    + intros (l & Hx & Hl). apply elem_of_cons in Hl as [->|Hl]; [by left|].
      right. by exists l.
Qed.

Lemma elem_of_dark_modules g n marker_shape dot_shape r c s :
  (r, c, s) ∈ dark_modules g n marker_shape dot_shape <->
  in_grid n r c
  /\ exists v, cell_at g r c = Some v /\ truthy v = true
       /\ s = shape_of (if finder_footprintb n r c then marker_shape else dot_shape).
Proof.
  unfold dark_modules. rewrite elem_of_concat. split.
  - intros (l & Hin & Hl). apply list_elem_of_fmap in Hl as ([r' c'] & -> & Hp).
    apply elem_of_grid_positions in Hp. simpl in Hin.
    destruct (cell_at g r' c') as [v|] eqn:Hv; [|inversion Hin].
    destruct (truthy v) eqn:Ht; [|inversion Hin].
    apply list_elem_of_singleton in Hin. simplify_eq. split; [done|]. by exists v.
  - intros (Hin & v & Hv & Ht & ->). eexists. split; last first.
    + apply list_elem_of_fmap. exists (r, c). split; [reflexivity|].
      by apply elem_of_grid_positions.
    + simpl. rewrite Hv, Ht. by apply list_elem_of_singleton.
Qed.

(** C7: on a finished symbol and with the same shapes configured, the
    raster and the vector renderer both return, and both draw one primitive
    per dark module of the grid, at the same coordinates in the same order
    and in the same shape variant; both classify a position as a finder
    module by the same test, which on the grid is membership of the three
    7x7 corner footprints. *)
Theorem C7_renderers_draw_same_modules
    (getrgb : string -> option (Z * Z * Z)) (st : QRGenerator)
    (color_image color_svg marker_shape dot_shape : string) :
  grid_ok st -> module_count st <> 0 ->
  exists g img svg,
    modules st = Some g
    /\ create_qr_image getrgb color_image marker_shape dot_shape st = Ret img st
    /\ create_qr_svg getrgb color_svg marker_shape dot_shape st = Ret svg st
    /\ (fun d => (drawn_image d).1) <$> img
       = dark_modules g (module_count st) marker_shape dot_shape
    /\ (fun e => (drawn_svg e).1) <$> svg
       = dark_modules g (module_count st) marker_shape dot_shape
    /\ forall r c,
         is_finder_image (module_count st) r c = is_finder_svg (module_count st) r c
         /\ (in_grid (module_count st) r c ->
             is_finder_image (module_count st) r c = true
             <-> finder_footprint (module_count st) r c).
Proof.
  intros Hok Hn. destruct (grid_ok_allocated st Hok Hn) as (g & Hm & Hwf).
  eexists g, _, _. split; [done|].
  split; [by apply create_qr_image_spec|].
  split; [by apply create_qr_svg_spec|]. split; [|split].
  - rewrite <- list_fmap_compose. rewrite <- (list_fmap_id (dark_modules _ _ _ _)) at 2.
    apply list_fmap_ext. by intros _ [[r c] []] _.
  - rewrite <- list_fmap_compose. rewrite <- (list_fmap_id (dark_modules _ _ _ _)) at 2.
    apply list_fmap_ext. by intros _ [[r c] []] _.
  - intros r c. destruct (is_finder_footprintb (module_count st) r c) as [E1 E2].
    split; [congruence|]. intros Hin. rewrite E1. by apply finder_footprintb_spec.
Qed.

Lemma C7_renderers_draw_same_modules_witness :
  exists g img svg,
    modules hello_world_symbol = Some g
    /\ create_qr_image only_red "#ff0000" "circle" "square" hello_world_symbol
       = Ret img hello_world_symbol
    /\ create_qr_svg only_red "#ff0000" "circle" "square" hello_world_symbol
       = Ret svg hello_world_symbol
    /\ (fun d => (drawn_image d).1) <$> img
       = dark_modules g (module_count hello_world_symbol) "circle" "square"
    /\ (fun e => (drawn_svg e).1) <$> svg
       = dark_modules g (module_count hello_world_symbol) "circle" "square"
    /\ forall r c,
         is_finder_image (module_count hello_world_symbol) r c
         = is_finder_svg (module_count hello_world_symbol) r c
         /\ (in_grid (module_count hello_world_symbol) r c ->
             is_finder_image (module_count hello_world_symbol) r c = true
             <-> finder_footprint (module_count hello_world_symbol) r c).
Proof.
  apply (C7_renderers_draw_same_modules only_red hello_world_symbol
           "#ff0000" "#ff0000" "circle" "square").
  - refine (bool_decide_eq_true_1 _ _). vm_compute. reflexivity.
  - vm_compute. discriminate.
Defined.

(** C8: on a finished symbol, when the colour string does not parse, both
    renderers return without error and draw every dark module in "#000000";
    when it parses, both draw every dark module in the colour as given. *)
Theorem C8_unparseable_colour_is_black
    (getrgb : string -> option (Z * Z * Z)) (st : QRGenerator)
    (color marker_shape dot_shape : string) :
  grid_ok st -> module_count st <> 0 ->
  exists g img svg,
    modules st = Some g
    /\ create_qr_image getrgb color marker_shape dot_shape st = Ret img st
    /\ create_qr_svg getrgb color marker_shape dot_shape st = Ret svg st
    /\ (getrgb color = None ->
        img = draw_call_of "#000000"
                <$> dark_modules g (module_count st) marker_shape dot_shape
        /\ svg = svg_element_of "#000000"
                   <$> dark_modules g (module_count st) marker_shape dot_shape)
    /\ (getrgb color <> None ->
        img = draw_call_of color
                <$> dark_modules g (module_count st) marker_shape dot_shape
        /\ svg = svg_element_of color
                   <$> dark_modules g (module_count st) marker_shape dot_shape).
Proof.
  intros Hok Hn. destruct (grid_ok_allocated st Hok Hn) as (g & Hm & Hwf).
  eexists g, _, _. split; [done|].
  split; [by apply create_qr_image_spec|].
  split; [by apply create_qr_svg_spec|]. unfold fill_colour.
  split; intros Hc; destruct (getrgb color); done.
Qed.

Lemma C8_unparseable_colour_is_black_witness :
  exists g img svg,
    modules hello_world_symbol = Some g
    /\ create_qr_image only_red "invalid-color" "square" "square" hello_world_symbol
       = Ret img hello_world_symbol
    /\ create_qr_svg only_red "invalid-color" "square" "square" hello_world_symbol
       = Ret svg hello_world_symbol
    /\ (only_red "invalid-color" = None ->
        img = draw_call_of "#000000"
                <$> dark_modules g (module_count hello_world_symbol) "square" "square"
        /\ svg = svg_element_of "#000000"
                   <$> dark_modules g (module_count hello_world_symbol) "square" "square")
    /\ (only_red "invalid-color" <> None ->
        img = draw_call_of "invalid-color"
                <$> dark_modules g (module_count hello_world_symbol) "square" "square"
        /\ svg = svg_element_of "invalid-color"
                   <$> dark_modules g (module_count hello_world_symbol) "square" "square").
Proof.
  apply (C8_unparseable_colour_is_black only_red hello_world_symbol
           "invalid-color" "square" "square").
  - refine (bool_decide_eq_true_1 _ _). vm_compute. reflexivity.
  - vm_compute. discriminate.
Defined.

(** ** The order of data placement *)

Lemma pair_flat {S} (body : Z -> S -> method S) (acc : S) st :
  for_acc (py_range 2) acc body st
  = match body 0 acc st with
    | Ret acc1 st1 => body 1 acc1 st1
    | Raise e st1 => Raise e st1
    end.
Proof.
  change (py_range 2) with [0; 1]. simpl. unfold bind, ret.
  destruct (body 0 acc st) as [acc1 st1|]; [|done]. by destruct (body 1 acc1 st1).
Qed.

Lemma sweep_flat data col indices loc st :
  for_acc indices loc (fun i loc =>
    bit_index' <- for_acc (py_range 2) (bit_index loc)
                    (_place_data_visit data (direction loc) col i) ;;
    ret {| bit_index := bit_index'; direction := direction loc * -1 |}) st
  = (bit_index' <- for_acc (sweep col indices (direction loc)).1 (bit_index loc)
                     (visit_step data) ;;
     ret {| bit_index := bit_index';
            direction := (sweep col indices (direction loc)).2 |}) st.
Proof.
  revert loc st. induction indices as [|i rest IH]; intros [b d] st; [done|].
  cbn [for_acc sweep bit_index direction].
  destruct (sweep col rest (d * -1)) as [visits d'] eqn:E.
  cbn [fst snd for_acc]. unfold bind, ret in *. rewrite pair_flat.
  unfold visit_step at 1 2. cbn [visit_direction visit_col visit_index visit_c].
  destruct (_place_data_visit data d col i 0 b st) as [b1 st1|]; [|done].
  destruct (_place_data_visit data d col i 1 b1 st1) as [b2 st2|]; [|done].
  rewrite (IH {| bit_index := b2; direction := d * -1 |} st2).
  cbn [bit_index direction]. rewrite E. reflexivity.
Qed.

Lemma sweeps_flat data n cols loc st :
  for_acc cols loc (fun col loc =>
    let col := if col =? 6 then col - 1 else col in
    for_acc (py_range n) loc (fun i loc =>
      bit_index' <- for_acc (py_range 2) (bit_index loc)
                      (_place_data_visit data (direction loc) col i) ;;
      ret {| bit_index := bit_index'; direction := direction loc * -1 |})) st
  = (bit_index' <- for_acc (sweeps n cols (direction loc)) (bit_index loc)
                     (visit_step data) ;;
     ret {| bit_index := bit_index';
            direction := (fold_left (fun d col =>
                            (sweep (if col =? 6 then col - 1 else col)
                               (py_range n) d).2) cols (direction loc)) |}) st.
Proof.
  revert loc st. induction cols as [|col rest IH]; intros [b d] st; [done|].
  cbn [for_acc sweeps fold_left bit_index direction]. cbn zeta.
  unfold bind at 1. rewrite sweep_flat. cbn [bit_index direction].
  destruct (sweep (if col =? 6 then col - 1 else col) (py_range n) d)
    as [visits d'] eqn:E. cbn [fst snd].
  unfold bind. rewrite for_acc_app. unfold bind.
  destruct (for_acc visits b (visit_step data) st) as [b1 st1|]; [|done].
  exact (IH {| bit_index := b1; direction := d' |} st1).
Qed.

(** [_place_data] goes through the visits of [_place_data_order], giving
    the next bit to each visited position that is not a function module. *)
Lemma _place_data_flat data st :
  _place_data data st
  = (for_acc (_place_data_order (module_count st)) 0 (visit_step data) ;; ret tt) st.
Proof.
  unfold _place_data. unfold bind at 1. unfold self at 1.
  unfold bind at 1. rewrite sweeps_flat. cbn [bit_index direction].
  unfold _place_data_order, bind.
  destruct (for_acc _ 0 (visit_step data) st); reflexivity.
Qed.

(** Within the loop over the rows of one column pair, the direction in
    force at the k-th row step is the starting direction times (-1)^k, and
    the loop hands on the starting direction times (-1)^(number of rows). *)
Lemma sweep_direction col indices d :
  (forall k v, (sweep col indices d).1 !! (2 * k)%nat = Some v ->
     visit_direction v = d * (-1) ^ Z.of_nat k)
  /\ (sweep col indices d).2 = d * (-1) ^ Z.of_nat (length indices).
Proof.
  revert d. induction indices as [|i rest IH]; intros d.
  - split; [intros k v Hk; destruct k; inversion Hk|simpl; lia].
  - cbn [sweep]. destruct (sweep col rest (d * -1)) as [visits d'] eqn:E.
    destruct (IH (d * -1)) as [IH1 IH2]. rewrite E in IH1, IH2. simpl in IH1, IH2.
    cbn [fst snd length]. split.
    + intros [|k] v Hk.
      * simpl in Hk. simplify_eq. simpl. lia.
      * replace (2 * S k)%nat with (S (S (2 * k))) in Hk by lia. simpl in Hk.
        rewrite (IH1 k v Hk), Nat2Z.inj_succ, Z.pow_succ_r by lia. lia.
    + rewrite IH2, Nat2Z.inj_succ, Z.pow_succ_r by lia. lia.
Qed.

(** C3 fails on the code: [_place_data] inverts the direction after every
    row step, not once per column pair. It goes through the visits of
    [_place_data_order]; on the 21x21 grid of the payload "A" at level High
    the first column pair is visited in the rows 20, 1, 18, 3, 16, 5, ...,
    alternately counted from the bottom and from the top, and the next pair
    starts at row 0. So bit 11 of the stream lands at (9, 19), and row 19 of
    columns 20 and 19, second in an upward sweep, receives no bit. *)
Theorem C3_direction_inverts_after_every_row :
  (forall data st,
     _place_data data st
     = (for_acc (_place_data_order (module_count st)) 0 (visit_step data) ;; ret tt) st)
  /\ (fun v => (visit_direction v, visit_row 21 v, visit_column v))
       <$> take 12 (_place_data_order 21)
     = [(-1, 20, 20); (-1, 20, 19); (1, 1, 20); (1, 1, 19);
        (-1, 18, 20); (-1, 18, 19); (1, 3, 20); (1, 3, 19);
        (-1, 16, 20); (-1, 16, 19); (1, 5, 20); (1, 5, 19)]
  /\ (fun v => (visit_direction v, visit_row 21 v, visit_column v))
       <$> take 4 (drop 40 (_place_data_order 21))
     = [(-1, 0, 20); (-1, 0, 19); (1, 0, 18); (1, 0, 17)]
  /\ exists g,
       _place_data (bit_stream [65])
         (mkQR 1 H (Some (function_patterns 1 H)) 21 (str "A"))
       = Ret tt (mkQR 1 H (Some g) 21 (str "A"))
       /\ cell_at g 20 19 = Some (PyInt 1)
       /\ cell_at g 9 19 = Some (PyInt 1)
       /\ cell_at g 19 20 = Some (PyBool false)
       /\ cell_at g 19 19 = Some (PyBool false).
Proof.
  split; [exact _place_data_flat|].
  split; [vm_compute; reflexivity|].
  split; [vm_compute; reflexivity|].
  eexists. split; [vm_compute; reflexivity|].
  repeat split; vm_compute; reflexivity.
Qed.

(** * Further properties of the pipeline *)

(** ** Function patterns of a finished symbol *)

(** [make] on a non-empty encodable payload, with the function modules
    of its matrix read off the function patterns of its version and level. *)
Lemma make_function_modules st payload_bytes :
  data st <> [] -> utf8_encode (data st) = Some payload_bytes ->
  exists v g,
    1 <= v <= 5
    /\ make st = Ret tt (mkQR v (error_correction st) (Some g) (4 * v + 17) (data st))
    /\ wf_grid (4 * v + 17) g
    /\ forall r c, in_grid (4 * v + 17) r c ->
         _is_function_module (mkQR v (error_correction st) None (4 * v + 17) []) r c = true ->
         cell_at g r c = cell_at (function_patterns v (error_correction st)) r c.
Proof.
  intros Hne Henc.
  destruct (make_spec st payload_bytes Hne Henc) as (v & g & Hsel & Hrun & Hwf & _ & Hframe).
  exists v, g. split; [exact (proj1 Hsel)|]. split; [done|]. split; [done|].
  intros r c Hin Hf. by apply Hframe.
Qed.

Lemma holds_true g r c v : holds g r c v = true -> cell_at g r c = Some v.
Proof. apply bool_decide_eq_true_1. Qed.

Lemma forallb_range (f : Z -> bool) a b i :
  forallb f (py_range2 a b) = true -> a <= i < b -> f i = true.
Proof.
  rewrite forallb_forall. intros Hall Hi. apply Hall.
  apply list_elem_of_In. unfold py_range2. apply elem_of_seqZ. lia.
Qed.

Ltac function_module :=
  unfold _is_function_module; cbn [version module_count];
  bool_cases; simpl; (done || lia).

Lemma function_patterns_checks v lvl :
  1 <= v <= 5 ->
  finders_ok (4 * v + 17) (function_patterns v lvl) = true
  /\ separators_ok (4 * v + 17) (function_patterns v lvl) = true
  /\ timing_ok (4 * v + 17) (function_patterns v lvl) = true
  /\ format_ok (4 * v + 17) lvl (function_patterns v lvl) = true.
Proof.
  intros Hv. version_cases v Hc; destruct lvl; repeat split; vm_compute; reflexivity.
Qed.

(** X1: in every symbol that [make] finishes, whatever the payload, the
    level and the version selected, each of the three 7x7 corner footprints
    holds the finder pattern: dark outer ring, light ring, dark 3x3 core. No
    later stage writes into it. *)
Theorem X1_finder_patterns (st : QRGenerator) (payload_bytes : list Z) :
  data st <> [] -> utf8_encode (data st) = Some payload_bytes ->
  exists st' g,
    make st = Ret tt st' /\ modules st' = Some g
    /\ forall r c, 0 <= r <= 6 -> 0 <= c <= 6 ->
         cell_at g r c = Some (PyBool (finder_ring r c))
         /\ cell_at g (module_count st' - 7 + r) c = Some (PyBool (finder_ring r c))
         /\ cell_at g r (module_count st' - 7 + c) = Some (PyBool (finder_ring r c)).
Proof.
  intros Hne Henc.
  destruct (make_function_modules st payload_bytes Hne Henc)
    as (v & g & Hv & Hrun & Hwf & Hfun).
  destruct (function_patterns_checks v (error_correction st) Hv) as (Hchk & _).
  eexists _, g. split; [exact Hrun|]. split; [reflexivity|].
  cbn [module_count]. intros r c Hr Hc.
  unfold finders_ok in Hchk.
  pose proof (forallb_range _ 0 7 r Hchk ltac:(lia)) as Hchk1.
  pose proof (forallb_range _ 0 7 c Hchk1 ltac:(lia)) as Hchk2.
  apply andb_prop in Hchk2 as [Hchk2 H3]. apply andb_prop in Hchk2 as [H1 H2].
  apply holds_true in H1, H2, H3.
  rewrite !Hfun; [done| | | | | |]; first [unfold in_grid; lia | function_module].
Qed.

Lemma X1_finder_patterns_witness :
  exists st' g,
    make hello_world = Ret tt st' /\ modules st' = Some g
    /\ forall r c, 0 <= r <= 6 -> 0 <= c <= 6 ->
         cell_at g r c = Some (PyBool (finder_ring r c))
         /\ cell_at g (module_count st' - 7 + r) c = Some (PyBool (finder_ring r c))
         /\ cell_at g r (module_count st' - 7 + c) = Some (PyBool (finder_ring r c)).
Proof.
  apply (X1_finder_patterns hello_world hello_world_bytes).
  - discriminate.
  - reflexivity.
Defined.

(** X2: in every finished symbol each finder pattern is bordered, on its
    two inner sides and over the whole length of 8 modules, by light
    separator modules. *)
Theorem X2_separators (st : QRGenerator) (payload_bytes : list Z) :
  data st <> [] -> utf8_encode (data st) = Some payload_bytes ->
  exists st' g,
    make st = Ret tt st' /\ modules st' = Some g
    /\ forall i, 0 <= i <= 7 ->
         cell_at g 7 i = Some (PyBool false)
         /\ cell_at g i 7 = Some (PyBool false)
         /\ cell_at g i (module_count st' - 8) = Some (PyBool false)
         /\ cell_at g 7 (module_count st' - 8 + i) = Some (PyBool false)
         /\ cell_at g (module_count st' - 8) i = Some (PyBool false)
         /\ cell_at g (module_count st' - 8 + i) 7 = Some (PyBool false).
Proof.
  intros Hne Henc.
  destruct (make_function_modules st payload_bytes Hne Henc)
    as (v & g & Hv & Hrun & Hwf & Hfun).
  destruct (function_patterns_checks v (error_correction st) Hv) as (_ & Hchk & _).
  eexists _, g. split; [exact Hrun|]. split; [reflexivity|].
  cbn [module_count]. intros i Hi.
  unfold separators_ok in Hchk.
  pose proof (forallb_range _ 0 8 i Hchk ltac:(lia)) as Hchk1.
  repeat (apply andb_prop in Hchk1 as [Hchk1 ?]).
  repeat match goal with H : holds _ _ _ _ = true |- _ => apply holds_true in H end.
  rewrite !Hfun; [done|..]; first [unfold in_grid; lia | function_module].
Qed.

Lemma X2_separators_witness :
  exists st' g,
    make hello_world = Ret tt st' /\ modules st' = Some g
    /\ forall i, 0 <= i <= 7 ->
         cell_at g 7 i = Some (PyBool false)
         /\ cell_at g i 7 = Some (PyBool false)
         /\ cell_at g i (module_count st' - 8) = Some (PyBool false)
         /\ cell_at g 7 (module_count st' - 8 + i) = Some (PyBool false)
         /\ cell_at g (module_count st' - 8) i = Some (PyBool false)
         /\ cell_at g (module_count st' - 8 + i) 7 = Some (PyBool false).
Proof.
  apply (X2_separators hello_world hello_world_bytes).
  - discriminate.
  - reflexivity.
Defined.

(** X3: in every finished symbol row 6 and column 6 alternate between the
    finder patterns, from index 8 to index size-9: dark at the even indices,
    light at the odd ones. *)
Theorem X3_timing_patterns (st : QRGenerator) (payload_bytes : list Z) :
  data st <> [] -> utf8_encode (data st) = Some payload_bytes ->
  exists st' g,
    make st = Ret tt st' /\ modules st' = Some g
    /\ forall i, 8 <= i <= module_count st' - 9 ->
         cell_at g 6 i = Some (PyBool (i mod 2 =? 0))
         /\ cell_at g i 6 = Some (PyBool (i mod 2 =? 0)).
Proof.
  intros Hne Henc.
  destruct (make_function_modules st payload_bytes Hne Henc)
    as (v & g & Hv & Hrun & Hwf & Hfun).
  destruct (function_patterns_checks v (error_correction st) Hv) as (_ & _ & Hchk & _).
  eexists _, g. split; [exact Hrun|]. split; [reflexivity|].
  cbn [module_count]. intros i Hi.
  unfold timing_ok in Hchk.
  pose proof (forallb_range _ _ _ i Hchk ltac:(lia)) as Hchk1.
  apply andb_prop in Hchk1 as [H1 H2]. apply holds_true in H1, H2.
  rewrite !Hfun; [done|..]; first [unfold in_grid; lia | function_module].
Qed.

Lemma X3_timing_patterns_witness :
  exists st' g,
    make hello_world = Ret tt st' /\ modules st' = Some g
    /\ forall i, 8 <= i <= module_count st' - 9 ->
         cell_at g 6 i = Some (PyBool (i mod 2 =? 0))
         /\ cell_at g i 6 = Some (PyBool (i mod 2 =? 0)).
Proof.
  apply (X3_timing_patterns hello_world hello_world_bytes).
  - discriminate.
  - reflexivity.
Defined.

(** X4: the correction level can be read back from every finished symbol:
    the modules (8,4) and (8,3), and their copies (size-5,8) and (size-4,8),
    hold the two bits of the level's code, and every other format module
    next to the top-left finder pattern holds 0, the mask id included. *)
Theorem X4_format_level_round_trip (st : QRGenerator) (payload_bytes : list Z) :
  data st <> [] -> utf8_encode (data st) = Some payload_bytes ->
  exists st' g high low high' low',
    make st = Ret tt st' /\ modules st' = Some g
    /\ cell_at g 8 4 = Some high /\ cell_at g 8 3 = Some low
    /\ cell_at g (module_count st' - 5) 8 = Some high'
    /\ cell_at g (module_count st' - 4) 8 = Some low'
    /\ read_level high low = Some (error_correction st)
    /\ read_level high' low' = Some (error_correction st)
    /\ forall i, 0 <= i <= 14 -> i <> 3 -> i <> 4 ->
         cell_at g (format_position i).1 (format_position i).2 = Some (PyInt 0).
Proof.
  intros Hne Henc.
  destruct (make_function_modules st payload_bytes Hne Henc)
    as (v & g & Hv & Hrun & Hwf & Hfun).
  destruct (function_patterns_checks v (error_correction st) Hv) as (_ & _ & _ & Hchk).
  unfold format_ok in Hchk.
  apply andb_prop in Hchk as [Hchk Hrest].
  repeat (apply andb_prop in Hchk as [Hchk ?]).
  repeat match goal with H : holds _ _ _ _ = true |- _ => apply holds_true in H end.
  eexists _, g, _, _, _, _. split; [exact Hrun|]. split; [reflexivity|].
  cbn [module_count].
  split; [rewrite Hfun; [eassumption|unfold in_grid; lia|function_module]|].
  split; [rewrite Hfun; [eassumption|unfold in_grid; lia|function_module]|].
  split; [rewrite Hfun; [eassumption|unfold in_grid; lia|function_module]|].
  split; [rewrite Hfun; [eassumption|unfold in_grid; lia|function_module]|].
  split; [by destruct (error_correction st)|].
  split; [by destruct (error_correction st)|].
  intros i Hi H3 H4.
  pose proof (forallb_range _ 0 15 i Hrest ltac:(lia)) as Hi'.
  apply Z.eqb_neq in H3, H4. cbv beta in Hi'. rewrite H3, H4 in Hi'.
  simpl in Hi'. apply holds_true in Hi'.
  assert (in_grid (4 * v + 17) (format_position i).1 (format_position i).2
          /\ _is_function_module (mkQR v (error_correction st) None (4 * v + 17) [])
               (format_position i).1 (format_position i).2 = true) as [Hin Hf].
  { unfold format_position, in_grid.
    destruct (Z.ltb_spec i 6); [simpl; split; [lia|function_module]|].
    destruct (Z.ltb_spec i 8); [simpl; split; [lia|function_module]|].
    destruct (Z.ltb_spec i 9); simpl; (split; [lia|function_module]). }
  by rewrite Hfun.
Qed.

Lemma X4_format_level_round_trip_witness :
  exists st' g high low high' low',
    make hello_world = Ret tt st' /\ modules st' = Some g
    /\ cell_at g 8 4 = Some high /\ cell_at g 8 3 = Some low
    /\ cell_at g (module_count st' - 5) 8 = Some high'
    /\ cell_at g (module_count st' - 4) 8 = Some low'
    /\ read_level high low = Some (error_correction hello_world)
    /\ read_level high' low' = Some (error_correction hello_world)
    /\ forall i, 0 <= i <= 14 -> i <> 3 -> i <> 4 ->
         cell_at g (format_position i).1 (format_position i).2 = Some (PyInt 0).
Proof.
  apply (X4_format_level_round_trip hello_world hello_world_bytes).
  - discriminate.
  - reflexivity.
Defined.

(** ** Version selection *)

Lemma _optimize_version_chosen st payload_bytes :
  utf8_encode (data st) = Some payload_bytes ->
  _optimize_version st
  = Ret tt (with_version (chosen_version (error_correction st) (len payload_bytes)) st).
Proof.
  intros Henc. unfold _optimize_version, chosen_version, bind, self. rewrite Henc.
  by destruct (_optimize_version_loop _ _ _).
Qed.

Ltac leb_cases :=
  repeat match goal with
    | |- context [?a <=? ?b] => destruct (Z.leb_spec a b)
    end.

Lemma chosen_version_monotone lvl1 lvl2 n1 n2 :
  level_rank lvl1 <= level_rank lvl2 -> n1 <= n2 ->
  chosen_version lvl1 n1 <= chosen_version lvl2 n2.
Proof.
  intros Hl Hn. unfold chosen_version.
  change (py_range2 1 6) with [1; 2; 3; 4; 5].
  destruct lvl1, lvl2; simpl in Hl; try lia; simpl; leb_cases; lia.
Qed.

(** X5: version selection is monotone. At one level a payload with more
    bytes never gets a smaller version; for one payload a stronger
    correction level (L, M, Q, H in this order) never gets a smaller
    version. *)
Theorem X5_version_monotone (st1 st2 : QRGenerator) (bytes1 bytes2 : list Z) :
  utf8_encode (data st1) = Some bytes1 ->
  utf8_encode (data st2) = Some bytes2 ->
  level_rank (error_correction st1) <= level_rank (error_correction st2) ->
  len bytes1 <= len bytes2 ->
  exists v1 v2,
    _optimize_version st1 = Ret tt (with_version v1 st1)
    /\ _optimize_version st2 = Ret tt (with_version v2 st2)
    /\ v1 <= v2.
Proof.
  intros Henc1 Henc2 Hl Hn. eexists _, _.
  split; [by apply _optimize_version_chosen|].
  split; [by apply _optimize_version_chosen|].
  by apply chosen_version_monotone.
Qed.

Lemma X5_version_monotone_witness :
  exists v1 v2,
    _optimize_version (with_data (str "Hello World") (__init__ 1 L))
      = Ret tt (with_version v1 (with_data (str "Hello World") (__init__ 1 L)))
    /\ _optimize_version (with_data (replicate 200 65) (__init__ 1 H))
       = Ret tt (with_version v2 (with_data (replicate 200 65) (__init__ 1 H)))
    /\ v1 <= v2.
Proof.
  apply (X5_version_monotone (with_data (str "Hello World") (__init__ 1 L))
           (with_data (replicate 200 65) (__init__ 1 H))
           hello_world_bytes (replicate 200 65)).
  - reflexivity.
  - reflexivity.
  - simpl. lia.
  - vm_compute. discriminate.
Defined.

(** X6: the two ends of version selection. A payload of at most 72 bytes
    gets version 1 at every level, whatever version the object was created
    with; a payload longer than the version 5 capacity of its level gets
    version 5, without any error. *)
Theorem X6_version_thresholds (st : QRGenerator) (payload_bytes : list Z) :
  utf8_encode (data st) = Some payload_bytes ->
  (len payload_bytes <= 72 -> _optimize_version st = Ret tt (with_version 1 st))
  /\ (capacity 5 (error_correction st) < len payload_bytes ->
      _optimize_version st = Ret tt (with_version 5 st)).
Proof.
  intros Henc. rewrite (_optimize_version_chosen st payload_bytes Henc).
  unfold chosen_version, capacity. change (py_range2 1 6) with [1; 2; 3; 4; 5].
  split; intros Hn; do 2 f_equal;
    destruct (error_correction st); simpl in *; leb_cases; lia.
Qed.

Lemma X6_version_thresholds_witness :
  (len hello_world_bytes <= 72 ->
   _optimize_version (with_data (str "Hello World") (__init__ 4 Q))
   = Ret tt (with_version 1 (with_data (str "Hello World") (__init__ 4 Q))))
  /\ (capacity 5 (error_correction (with_data (str "Hello World") (__init__ 4 Q)))
        < len hello_world_bytes ->
      _optimize_version (with_data (str "Hello World") (__init__ 4 Q))
      = Ret tt (with_version 5 (with_data (str "Hello World") (__init__ 4 Q)))).
Proof.
  apply (X6_version_thresholds (with_data (str "Hello World") (__init__ 4 Q))
           hello_world_bytes).
  reflexivity.
Defined.

(** ** Running [make] again *)

Lemma make_matrix_from_patterns v lvl m n d :
  1 <= v <= 5 ->
  make_matrix (mkQR v lvl m n d)
  = payload_stages (mkQR v lvl (Some (function_patterns v lvl)) (4 * v + 17) d).
Proof.
  intros Hv. destruct (version_info_size v Hv) as (entry & He & _).
  rewrite (make_matrix_split (mkQR v lvl m n d) entry He).
  by rewrite (bind_ret _ _ _ _ _ (function_pattern_stages_eval v lvl m n d entry Hv He)).
Qed.

Lemma chosen_version_range lvl n : 1 <= chosen_version lvl n <= 5.
Proof.
  unfold chosen_version. change (py_range2 1 6) with [1; 2; 3; 4; 5].
  destruct lvl; simpl; leb_cases; lia.
Qed.

Lemma make_from_patterns st payload_bytes :
  data st <> [] -> utf8_encode (data st) = Some payload_bytes ->
  make st
  = payload_stages
      (mkQR (chosen_version (error_correction st) (len payload_bytes))
         (error_correction st)
         (Some (function_patterns
                  (chosen_version (error_correction st) (len payload_bytes))
                  (error_correction st)))
         (4 * chosen_version (error_correction st) (len payload_bytes) + 17)
         (data st)).
Proof.
  intros Hne Henc. rewrite (make_nonempty st Hne).
  rewrite (bind_ret _ _ _ _ _ (_optimize_version_chosen st payload_bytes Henc)).
  apply (make_matrix_from_patterns _ (error_correction st) (modules st)
           (module_count st) (data st)).
  apply chosen_version_range.
Qed.

(** X7: [make] rebuilds the symbol from the payload and the level alone.
    The finished object depends on nothing else the object held before (the
    version given to the constructor, an earlier matrix), and running [make]
    again on a finished object returns it unchanged. *)
Theorem X7_make_depends_on_payload_and_level
    (st : QRGenerator) (payload_bytes : list Z) :
  data st <> [] -> utf8_encode (data st) = Some payload_bytes ->
  exists st',
    make st = Ret tt st'
    /\ make st' = Ret tt st'
    /\ forall st2, data st2 = data st -> error_correction st2 = error_correction st ->
         make st2 = Ret tt st'.
Proof.
  intros Hne Henc.
  destruct (make_spec st payload_bytes Hne Henc) as (v & g & _ & Hrun & _).
  assert (forall st2, data st2 = data st -> error_correction st2 = error_correction st ->
            make st2 = make st) as Hsame.
  { intros st2 Hd Hl.
    rewrite (make_from_patterns st payload_bytes Hne Henc).
    rewrite (make_from_patterns st2 payload_bytes); [by rewrite Hd, Hl| |]; by rewrite Hd. }
  eexists. split; [exact Hrun|]. split.
  - etrans; [|exact Hrun]. by apply Hsame.
  - intros st2 Hd Hl. etrans; [|exact Hrun]. by apply Hsame.
Qed.

Lemma X7_make_depends_on_payload_and_level_witness :
  exists st',
    make hello_world = Ret tt st'
    /\ make st' = Ret tt st'
    /\ forall st2, data st2 = data hello_world ->
         error_correction st2 = error_correction hello_world ->
         make st2 = Ret tt st'.
Proof.
  apply (X7_make_depends_on_payload_and_level hello_world hello_world_bytes).
  - discriminate.
  - reflexivity.
Defined.

(** ** Where the payload bits go *)

Lemma sweep_elem col indices d v :
  v ∈ (sweep col indices d).1 ->
  visit_col v = col /\ visit_index v ∈ indices /\ (visit_c v = 0 \/ visit_c v = 1).
Proof.
  revert d. induction indices as [|i rest IH]; intros d; cbn [sweep].
  - intros Hv. inversion Hv.
  - destruct (sweep col rest (d * -1)) as [visits d'] eqn:E. cbn [fst].
    specialize (IH (d * -1)). rewrite E in IH. cbn [fst] in IH.
    rewrite !elem_of_cons. intros [->|[->|Hv]]; simpl.
    + split; [done|]. split; [by left|by left].
    + split; [done|]. split; [by left|by right].
    + destruct (IH Hv) as (Hc & Hi & Hcc). split; [done|]. split; [by right|done].
Qed.

Lemma sweeps_elem n cols d v :
  v ∈ sweeps n cols d ->
  (exists col, col ∈ cols /\ visit_col v = if col =? 6 then col - 1 else col)
  /\ visit_index v ∈ py_range n /\ (visit_c v = 0 \/ visit_c v = 1).
Proof.
  revert d. induction cols as [|col rest IH]; intros d; cbn [sweeps].
  - intros Hv. inversion Hv.
  - cbn zeta.
    destruct (sweep (if col =? 6 then col - 1 else col) (py_range n) d)
      as [visits d'] eqn:E.
    rewrite elem_of_app. intros [Hv|Hv].
    + pose proof (sweep_elem (if col =? 6 then col - 1 else col) (py_range n) d v)
        as Hs. rewrite E in Hs. destruct (Hs Hv) as (Hc & Hi & Hcc).
      split; [exists col; split; [left|done]|done].
    + destruct (IH d' Hv) as ((col' & Hcol' & Hc) & Hi & Hcc).
      split; [exists col'; split; [by right|done]|done].
Qed.

(** Every visit of [_place_data] addresses a position of the grid. *)
Lemma visit_in_grid n v :
  v ∈ _place_data_order n -> in_grid n (visit_row n v) (visit_column v).
Proof.
  intros Hv. apply sweeps_elem in Hv as ((col & Hcol & Hc) & Hi & Hcc).
  apply elem_of_column_pairs in Hcol. apply elem_of_py_range in Hi.
  unfold in_grid, visit_row, visit_column. rewrite Hc.
  rewrite Z.mod_small by lia.
  destruct (visit_direction v =? -1), (col =? 6) eqn:E; lia.
Qed.

Lemma py_getitem_lookup {A} (l : list A) i :
  0 <= i < len l -> py_getitem l i = l !! Z.to_nat i.
Proof. intros Hi. unfold py_getitem. by rewrite py_index_in. Qed.

Lemma write_bits_nil g path : write_bits g [] path = g.
Proof. reflexivity. Qed.

Lemma write_bits_cons g b bits p path :
  write_bits g (b :: bits) (p :: path)
  = write_bits (grid_set g p.1 p.2 (PyInt b)) bits path.
Proof. reflexivity. Qed.

Lemma write_bits_wf n g bits path : wf_grid n g -> wf_grid n (write_bits g bits path).
Proof.
  revert g path. induction bits as [|b bits IH]; intros g [|p path] Hwf; try done.
  rewrite write_bits_cons. apply IH. by apply grid_set_wf.
Qed.

(** The loop of [_place_data] from bit [k] on, over any visits inside
    the grid: it stores the remaining bits along the non-function visits. *)
Lemma place_along st0 data visits :
  (forall v, v ∈ visits ->
     in_grid (module_count st0) (visit_row (module_count st0) v) (visit_column v)) ->
  forall k g, 0 <= k -> wf_grid (module_count st0) g ->
  exists k',
    for_acc visits k (visit_step data) (with_modules (Some g) st0)
    = Ret k' (with_modules
                (Some (write_bits g (drop (Z.to_nat k) data) (positions_of st0 visits)))
                st0).
Proof.
  induction visits as [|v visits IH]; intros Hin k g Hk Hwf.
  - exists k. simpl. unfold ret, positions_of. simpl.
    by destruct (drop (Z.to_nat k) data).
  - assert (forall v', v' ∈ visits ->
              in_grid (module_count st0) (visit_row (module_count st0) v')
                (visit_column v')) as Hin' by (intros; apply Hin; by right).
    pose proof (Hin v ltac:(left)) as Hv.
    cbn [for_acc]. unfold bind at 1. unfold visit_step at 1.
    unfold _place_data_visit. unfold bind at 1. unfold self at 1.
    change (module_count (with_modules (Some g) st0)) with (module_count st0).
    change (_is_function_module (with_modules (Some g) st0))
      with (_is_function_module st0).
    fold (visit_row (module_count st0) v). fold (visit_column v).
    unfold positions_of, data_visits. cbn [List.filter].
    destruct (_is_function_module st0 (visit_row (module_count st0) v)
                (visit_column v)) eqn:Hf; cbn [negb].
    { unfold ret at 1. exact (IH Hin' k g Hk Hwf). }
    cbn [fmap list_fmap].
    destruct (Z.ltb_spec k (len data)) as [Hlt|Hge].
    + rewrite py_getitem_lookup by lia.
      destruct (lookup_lt_is_Some_2 data (Z.to_nat k)) as [b Hb];
        [unfold len in Hlt; lia|].
      rewrite Hb. unfold bind at 1.
      rewrite (setitem_in (module_count st0) _ g) by done.
      unfold ret at 1.
      destruct (IH Hin' (k + 1) (grid_set g (visit_row (module_count st0) v)
                                   (visit_column v) (PyInt b)))
        as [k' Hrun]; [lia|by apply grid_set_wf|].
      exists k'.
      change (with_modules
                (Some (grid_set g (visit_row (module_count st0) v)
                         (visit_column v) (PyInt b)))
                (with_modules (Some g) st0))
        with (with_modules
                (Some (grid_set g (visit_row (module_count st0) v)
                         (visit_column v) (PyInt b))) st0).
      rewrite Hrun. do 3 f_equal.
      rewrite (drop_S _ _ _ Hb). rewrite Z2Nat.inj_add by lia.
      rewrite Nat.add_1_r. reflexivity.
    + unfold ret at 1. destruct (IH Hin' k g Hk Hwf) as [k' Hrun].
      exists k'. rewrite Hrun. do 3 f_equal.
      rewrite drop_ge by (unfold len in Hge; lia). reflexivity.
Qed.

(** What [_place_data] does to a square grid. *)
Lemma _place_data_writes_path st0 g0 data :
  wf_grid (module_count st0) g0 ->
  _place_data data (with_modules (Some g0) st0)
  = Ret tt (with_modules (Some (write_bits g0 data (placement_path st0))) st0).
Proof.
  intros Hwf. rewrite _place_data_flat.
  change (module_count (with_modules (Some g0) st0)) with (module_count st0).
  destruct (place_along st0 data (_place_data_order (module_count st0))
              (fun v Hv => visit_in_grid _ v Hv) 0 g0 ltac:(lia) Hwf) as [k' Hrun].
  by rewrite (bind_ret _ _ _ _ _ Hrun).
Qed.

(** X8: what [_place_data] does to a square grid, for every stream and
    every side: it returns without error and has stored the stream, bit by
    bit from the first, along the visited positions that are not function
    modules, in the order of the visits; it stops silently when the stream
    or the path is exhausted. *)
Theorem X8_place_data_follows_path (st0 : QRGenerator) (g0 : grid) (data : list Z) :
  wf_grid (module_count st0) g0 ->
  _place_data data (with_modules (Some g0) st0)
  = Ret tt (with_modules (Some (write_bits g0 data (placement_path st0))) st0).
Proof. apply _place_data_writes_path. Qed.

Lemma X8_place_data_follows_path_witness :
  _place_data (bit_stream [65])
    (with_modules (Some (function_patterns 1 H)) (mkQR 1 H None 21 (str "A")))
  = Ret tt (with_modules
              (Some (write_bits (function_patterns 1 H) (bit_stream [65])
                       (placement_path (mkQR 1 H None 21 (str "A")))))
              (mkQR 1 H None 21 (str "A"))).
Proof.
  apply (X8_place_data_follows_path (mkQR 1 H None 21 (str "A"))
           (function_patterns 1 H) (bit_stream [65])).
  refine (bool_decide_eq_true_1 _ _). vm_compute. reflexivity.
Defined.

(** ** What of the payload reaches the symbol *)

Lemma zip_take_length {A B} (l : list A) (k : list B) :
  zip l k = zip (take (length k) l) k.
Proof.
  revert k. induction l as [|x l IH]; intros [|y k]; simpl; try done.
  by rewrite <- IH.
Qed.

Lemma write_bits_take g bits path :
  write_bits g bits path = write_bits g (take (length path) bits) path.
Proof. unfold write_bits. by rewrite <- zip_take_length. Qed.

Lemma grid_ext n g g' :
  wf_grid n g -> wf_grid n g' ->
  (forall r c, in_grid n r c -> cell_at g r c = cell_at g' r c) -> g = g'.
Proof.
  intros [Hl Hr] [Hl' Hr'] Hcells. apply list_eq. intros i.
  destruct (decide (i < length g)%nat) as [Hi|Hi].
  - destruct (lookup_lt_is_Some_2 g i Hi) as [line Hline].
    destruct (lookup_lt_is_Some_2 g' i ltac:(lia)) as [line' Hline'].
    rewrite Hline, Hline'. f_equal.
    pose proof (Forall_lookup_1 _ _ _ _ Hr Hline) as Hlen. simpl in Hlen.
    pose proof (Forall_lookup_1 _ _ _ _ Hr' Hline') as Hlen'. simpl in Hlen'.
    apply list_eq. intros j.
    destruct (decide (j < length line)%nat) as [Hj|Hj].
    + specialize (Hcells (Z.of_nat i) (Z.of_nat j)). unfold cell_at in Hcells.
      rewrite !Nat2Z.id, Hline, Hline' in Hcells. apply Hcells.
      unfold in_grid. lia.
    + rewrite !lookup_ge_None_2 by lia. done.
  - rewrite !lookup_ge_None_2 by lia. done.
Qed.

(** The mask on two objects of the same version and side holding the same
    square grid gives the same grid. *)
Lemma _apply_mask_same_grid st1 st2 g :
  version st1 = version st2 -> module_count st1 = module_count st2 ->
  modules st1 = Some g -> modules st2 = Some g ->
  wf_grid (module_count st1) g ->
  exists g', _apply_mask st1 = Ret tt (with_modules (Some g') st1)
    /\ _apply_mask st2 = Ret tt (with_modules (Some g') st2).
Proof.
  intros Hv Hn Hm1 Hm2 Hwf.
  destruct (_apply_mask_spec st1 g Hm1 Hwf) as (g1 & Hrun1 & Hwf1 & Hc1).
  assert (wf_grid (module_count st2) g) as Hwf' by (by rewrite <- Hn).
  destruct (_apply_mask_spec st2 g Hm2 Hwf') as (g2 & Hrun2 & Hwf2 & Hc2).
  exists g1. split; [done|]. rewrite Hrun2. do 3 f_equal.
  rewrite <- Hn in Hwf2, Hc2.
  apply (grid_ext (module_count st1)); [done|done|].
  intros r c Hrc. rewrite (Hc1 r c Hrc), (Hc2 r c Hrc).
  unfold mask_value, masked, _is_function_module. by rewrite Hv, Hn.
Qed.

Lemma take_bit_stream (k : nat) (bytes1 bytes2 : list Z) :
  len bytes1 = len bytes2 ->
  take k bytes1 = take k bytes2 ->
  take (12 + 8 * k) (bit_stream bytes1) = take (12 + 8 * k) (bit_stream bytes2).
Proof.
  intros Hlen Htake. unfold bit_stream. rewrite Hlen.
  rewrite !app_assoc.
  set (header := ([0; 1; 0; 0] ++ msb_first8 (len bytes2))).
  assert (length header = 12%nat) as Hh by reflexivity.
  rewrite !take_app_ge by lia. rewrite Hh. f_equal.
  replace (12 + 8 * k - 12)%nat with (8 * k)%nat by lia.
  clear Hlen Hh header. revert bytes1 bytes2 Htake.
  induction k as [|k IH]; intros [|b1 bs1] [|b2 bs2] Htake; simpl in Htake;
    try done; simplify_eq.
  replace (8 * S k)%nat with (8 + 8 * k)%nat by lia.
  rewrite !fmap_cons. cbn [concat].
  change (msb_first8 b2 ++ ?l) with
    (b2 / 128 mod 2 :: b2 / 64 mod 2 :: b2 / 32 mod 2 :: b2 / 16 mod 2
     :: b2 / 8 mod 2 :: b2 / 4 mod 2 :: b2 / 2 mod 2 :: b2 mod 2 :: l).
  cbn [take Nat.add]. do 8 f_equal. by apply IH.
Qed.

Lemma bytes_reached_covers v :
  (length (placement_path (mkQR v L None (4 * v + 17) []))
   <= 12 + 8 * Z.to_nat (bytes_reached v))%nat.
Proof.
  unfold bytes_reached, path_length, len.
  set (p := length _). Z.div_mod_to_equations. lia.
Qed.

(** The symbol of a payload, as the mask applied to the stream written over
    the function patterns. *)
Lemma make_writes_stream st payload_bytes :
  data st <> [] -> utf8_encode (data st) = Some payload_bytes ->
  make st
  = _apply_mask
      (mkQR (chosen_version (error_correction st) (len payload_bytes))
         (error_correction st)
         (Some (write_bits
                  (function_patterns
                     (chosen_version (error_correction st) (len payload_bytes))
                     (error_correction st))
                  (bit_stream payload_bytes)
                  (placement_path
                     (mkQR (chosen_version (error_correction st) (len payload_bytes))
                        L None
                        (4 * chosen_version (error_correction st) (len payload_bytes) + 17)
                        []))))
         (4 * chosen_version (error_correction st) (len payload_bytes) + 17)
         (data st)).
Proof.
  intros Hne Henc. rewrite (make_from_patterns st payload_bytes Hne Henc).
  set (v := chosen_version (error_correction st) (len payload_bytes)).
  rewrite (payload_stages_stream
             (mkQR v (error_correction st)
                (Some (function_patterns v (error_correction st)))
                (4 * v + 17) (data st)) payload_bytes Henc).
  destruct (function_patterns_wf v (error_correction st) (chosen_version_range _ _))
    as [Hwf _].
  pose proof (_place_data_writes_path
                (mkQR v (error_correction st) None (4 * v + 17) (data st))
                (function_patterns v (error_correction st))
                (bit_stream payload_bytes) Hwf) as Hrun.
  exact (bind_ret _ _ _ _ _ Hrun).
Qed.

(** X9: the tail of a long payload never reaches the symbol. Two payloads
    of the same byte length at the same level that agree on their first
    [bytes_reached v] bytes, [v] being the version selected for that length,
    give finished symbols with the same matrix: the placement path of the
    version is shorter than the stream, and the bits beyond it are dropped
    without error. *)
Theorem X9_payload_tail_never_stored
    (st1 st2 : QRGenerator) (bytes1 bytes2 : list Z) :
  data st1 <> [] -> data st2 <> [] ->
  utf8_encode (data st1) = Some bytes1 ->
  utf8_encode (data st2) = Some bytes2 ->
  error_correction st1 = error_correction st2 ->
  len bytes1 = len bytes2 ->
  take (Z.to_nat (bytes_reached (chosen_version (error_correction st1) (len bytes1))))
    bytes1
  = take (Z.to_nat (bytes_reached (chosen_version (error_correction st1) (len bytes1))))
      bytes2 ->
  exists st1' st2',
    make st1 = Ret tt st1' /\ make st2 = Ret tt st2'
    /\ version st1' = chosen_version (error_correction st1) (len bytes1)
    /\ version st2' = version st1'
    /\ modules st1' = modules st2'.
Proof.
  intros Hne1 Hne2 Henc1 Henc2 Hlvl Hlen Htake.
  rewrite (make_writes_stream st1 bytes1 Hne1 Henc1).
  rewrite (make_writes_stream st2 bytes2 Hne2 Henc2).
  rewrite <- Hlvl, <- Hlen.
  set (v := chosen_version (error_correction st1) (len bytes1)) in *.
  set (path := placement_path (mkQR v L None (4 * v + 17) [])).
  assert (write_bits (function_patterns v (error_correction st1)) (bit_stream bytes1) path
          = write_bits (function_patterns v (error_correction st1)) (bit_stream bytes2) path)
    as Hw.
  { rewrite (write_bits_take _ (bit_stream bytes1)), (write_bits_take _ (bit_stream bytes2)).
    f_equal. pose proof (bytes_reached_covers v) as Hcov. fold path in Hcov.
    pose proof (take_bit_stream _ bytes1 bytes2 Hlen Htake) as Ht.
    rewrite <- (Nat.min_l _ _ Hcov), <- !take_take. by rewrite Ht. }
  rewrite <- Hw.
  set (g := write_bits _ (bit_stream bytes1) path).
  destruct (function_patterns_wf v (error_correction st1) (chosen_version_range _ _))
    as [Hwf _].
  destruct (_apply_mask_same_grid
              (mkQR v (error_correction st1) (Some g) (4 * v + 17) (data st1))
              (mkQR v (error_correction st1) (Some g) (4 * v + 17) (data st2)) g
              eq_refl eq_refl eq_refl eq_refl (write_bits_wf _ _ _ _ Hwf))
    as (g' & Hrun1 & Hrun2).
  eexists _, _. split; [exact Hrun1|]. split; [exact Hrun2|]. done.
Qed.

Lemma X9_payload_tail_never_stored_witness :
  exists st1' st2',
    make (with_data (replicate 30 65) (__init__ 1 H)) = Ret tt st1'
    /\ make (with_data (replicate 25 65 ++ replicate 5 66) (__init__ 1 H)) = Ret tt st2'
    /\ version st1'
       = chosen_version (error_correction (with_data (replicate 30 65) (__init__ 1 H)))
           (len (replicate 30 65))
    /\ version st2' = version st1'
    /\ modules st1' = modules st2'.
Proof.
  apply (X9_payload_tail_never_stored
           (with_data (replicate 30 65) (__init__ 1 H))
           (with_data (replicate 25 65 ++ replicate 5 66) (__init__ 1 H))
           (replicate 30 65) (replicate 25 65 ++ replicate 5 66)).
  - discriminate.
  - discriminate.
  - reflexivity.
  - reflexivity.
  - reflexivity.
  - reflexivity.
  - vm_compute. reflexivity.
Defined.

Lemma path_lengths :
  path_length 1 = 208 /\ path_length 2 = 384 /\ path_length 3 = 592
  /\ path_length 4 = 832 /\ path_length 5 = 1104.
Proof. repeat split; vm_compute; reflexivity. Qed.

Lemma stream_fits_iff lvl payload_bytes :
  len (bit_stream payload_bytes) <= path_length (chosen_version lvl (len payload_bytes))
  <-> len payload_bytes <= 24.
Proof.
  assert (len (bit_stream payload_bytes) = 12 + 8 * len payload_bytes) as ->.
  { unfold bit_stream, len. rewrite !length_app.
    pose proof (length_concat_msb_first payload_bytes) as Hc. unfold len in Hc.
    simpl. lia. }
  destruct path_lengths as (P1 & P2 & P3 & P4 & P5).
  assert (0 <= len payload_bytes) as Hpos by (unfold len; lia).
  set (n := len payload_bytes) in *.
  unfold chosen_version. change (py_range2 1 6) with [1; 2; 3; 4; 5].
  destruct lvl; simpl; leb_cases; rewrite ?P1, ?P2, ?P3, ?P4, ?P5; lia.
Qed.


(** ** UTF-8 bytes *)

Lemma lor_upper a b : 0 <= a -> 0 <= b -> 0 <= Z.lor a b <= a + b.
Proof.
  intros Ha Hb. pose proof (Z.add_lor_land a b).
  pose proof (proj2 (Z.land_nonneg a b) (or_introl Ha)).
  pose proof (proj2 (Z.lor_nonneg a b) (conj Ha Hb)). lia.
Qed.

Lemma land_63 x : 0 <= Z.land x 63 < 64.
Proof.
  change 63 with (Z.ones 6). rewrite Z.land_ones by lia.
  apply Z.mod_pos_bound. lia.
Qed.

Lemma utf8_encode_char_bytes cp bs :
  utf8_encode_char cp = Some bs ->
  Forall is_byte bs /\ (1 <= length bs <= 4)%nat.
Proof.
  unfold utf8_encode_char, is_byte.
  destruct (Z.ltb_spec cp 0); [done|].
  destruct (Z.ltb_spec cp 128).
  { intros [= <-]. split; [repeat constructor; lia|simpl; lia]. }
  destruct (Z.ltb_spec cp 2048).
  { intros [= <-]. split; [|simpl; lia].
    assert (0 <= Z.shiftr cp 6 < 32).
    { rewrite Z.shiftr_div_pow2 by lia. change (2 ^ 6) with 64.
      Z.div_mod_to_equations. lia. }
    pose proof (land_63 cp).
    pose proof (lor_upper 192 (Z.shiftr cp 6)).
    pose proof (lor_upper 128 (Z.land cp 63)).
    repeat constructor; lia. }
  destruct ((55296 <=? cp) && (cp <=? 57343)); [done|].
  destruct (Z.ltb_spec cp 65536).
  { intros [= <-]. split; [|simpl; lia].
    assert (0 <= Z.shiftr cp 12 < 16).
    { rewrite Z.shiftr_div_pow2 by lia. change (2 ^ 12) with 4096.
      Z.div_mod_to_equations. lia. }
    pose proof (land_63 cp). pose proof (land_63 (Z.shiftr cp 6)).
    pose proof (lor_upper 224 (Z.shiftr cp 12)).
    pose proof (lor_upper 128 (Z.land cp 63)).
    pose proof (lor_upper 128 (Z.land (Z.shiftr cp 6) 63)).
    repeat constructor; lia. }
  destruct (Z.ltb_spec cp 1114112); [|done].
  intros [= <-]. split; [|simpl; lia].
  assert (0 <= Z.shiftr cp 18 < 8).
  { rewrite Z.shiftr_div_pow2 by lia. change (2 ^ 18) with 262144.
    Z.div_mod_to_equations. lia. }
  pose proof (land_63 cp). pose proof (land_63 (Z.shiftr cp 6)).
  pose proof (land_63 (Z.shiftr cp 12)).
  pose proof (lor_upper 240 (Z.shiftr cp 18)).
  pose proof (lor_upper 128 (Z.land cp 63)).
  pose proof (lor_upper 128 (Z.land (Z.shiftr cp 6) 63)).
  pose proof (lor_upper 128 (Z.land (Z.shiftr cp 12) 63)).
  repeat constructor; lia.
Qed.

Lemma utf8_encode_bytes s bs :
  utf8_encode s = Some bs ->
  Forall is_byte bs /\ len s <= len bs <= 4 * len s.
Proof.
  revert bs. unfold len. induction s as [|cp s IH]; intros bs; simpl.
  - intros [= <-]. split; [constructor|simpl; lia].
  - destruct (utf8_encode_char cp) as [b|] eqn:Hc; [|done].
    destruct (utf8_encode s) as [bs'|]; [|done]. intros [= <-].
    destruct (utf8_encode_char_bytes cp b Hc) as [Hb Hl].
    destruct (IH bs' eq_refl) as [Hbs Hls].
    split; [by apply Forall_app|]. rewrite length_app. lia.
Qed.

Lemma utf8_encode_app s1 s2 :
  utf8_encode (s1 ++ s2)
  = match utf8_encode s1, utf8_encode s2 with
    | Some b1, Some b2 => Some (b1 ++ b2)
    | _, _ => None
    end.
Proof.
  induction s1 as [|cp s1 IH]; simpl.
  - by destruct (utf8_encode s2).
  - rewrite IH. destruct (utf8_encode_char cp) as [b|]; [|done].
    destruct (utf8_encode s1) as [b1|]; [|done].
    destruct (utf8_encode s2) as [b2|]; [|done].
    by rewrite app_assoc.
Qed.

Lemma utf8_encode_ascii s : is_ascii s = true -> utf8_encode s = Some s.
Proof.
  unfold is_ascii. induction s as [|c s IH]; simpl; [done|].
  intros Hc. apply andb_prop in Hc as [Hc Hs]. rewrite (IH Hs).
  unfold utf8_encode_char. apply andb_prop in Hc as [H0 H1].
  apply Z.leb_le in H0. apply Z.ltb_lt in H1.
  destruct (Z.ltb_spec c 0); [lia|]. destruct (Z.ltb_spec c 128); [done|lia].
Qed.

(** ** The contact record *)

(** Encoding goes through the template: the fixed text is ASCII. *)
Lemma utf8_encode_generate_vcard name phone email company title url_work url_home :
  utf8_encode (generate_vcard name phone email company title url_work url_home)
  = match utf8_encode name, utf8_encode phone, utf8_encode email,
          utf8_encode company, utf8_encode title, utf8_encode url_work,
          utf8_encode url_home with
    | Some bn, Some bp, Some be, Some bc, Some bt, Some bw, Some bh =>
        Some (vcard_bytes bn bp be bc bt bw bh)
    | _, _, _, _, _, _, _ => None
    end.
Proof.
  unfold vcard_bytes, generate_vcard. rewrite !utf8_encode_app.
  rewrite !(utf8_encode_ascii (str _)) by reflexivity.
  rewrite !(utf8_encode_ascii newline) by reflexivity.
  destruct (utf8_encode name), (utf8_encode phone), (utf8_encode email),
    (utf8_encode company), (utf8_encode title), (utf8_encode url_work),
    (utf8_encode url_home); reflexivity.
Qed.

Lemma len_vcard_bytes bn bp be bc bt bw bh :
  len (vcard_bytes bn bp be bc bt bw bh)
  = 91 + len bn + len bp + len be + len bc + len bt + len bw + len bh.
Proof.
  unfold vcard_bytes, generate_vcard, len. rewrite !length_app.
  change (length newline) with 1%nat.
  change (length (str "BEGIN:VCARD")) with 11%nat.
  change (length (str "VERSION:3.0")) with 11%nat.
  change (length (str "FN:")) with 3%nat.
  change (length (str "TEL:")) with 4%nat.
  change (length (str "EMAIL:")) with 6%nat.
  change (length (str "ORG:")) with 4%nat.
  change (length (str "TITLE:")) with 6%nat.
  change (length (str "URL;TYPE=WORK:")) with 14%nat.
  change (length (str "URL;TYPE=HOME:")) with 14%nat.
  change (length (str "END:VCARD")) with 9%nat.
  lia.
Qed.

Lemma chosen_version_H_above_72 n : 72 < n -> 2 <= chosen_version H n.
Proof.
  intros Hn. unfold chosen_version. change (py_range2 1 6) with [1; 2; 3; 4; 5].
  simpl. leb_cases; lia.
Qed.

(** X11: the contact record of seven encodable fields is never empty; its
    UTF-8 encoding is the template filled with the encodings of the fields,
    91 bytes plus the bytes of the fields. At level High, the level of the
    server, it is therefore never given version 1, and at every level its
    bit stream is longer than the placement path of its version. *)
Theorem X11_vcard_never_fits
    (name phone email company title url_work url_home : pystr)
    (bn bp be bc bt bw bh : list Z) (lvl : ErrorCorrectionLevel) :
  utf8_encode name = Some bn -> utf8_encode phone = Some bp ->
  utf8_encode email = Some be -> utf8_encode company = Some bc ->
  utf8_encode title = Some bt -> utf8_encode url_work = Some bw ->
  utf8_encode url_home = Some bh ->
  generate_vcard name phone email company title url_work url_home <> []
  /\ utf8_encode (generate_vcard name phone email company title url_work url_home)
     = Some (vcard_bytes bn bp be bc bt bw bh)
  /\ len (vcard_bytes bn bp be bc bt bw bh)
     = 91 + len bn + len bp + len be + len bc + len bt + len bw + len bh
  /\ 2 <= chosen_version H (len (vcard_bytes bn bp be bc bt bw bh))
  /\ path_length (chosen_version lvl (len (vcard_bytes bn bp be bc bt bw bh)))
     < len (bit_stream (vcard_bytes bn bp be bc bt bw bh)).
Proof.
  intros Hn Hp He Hc Ht Hw Hh.
  pose proof (len_vcard_bytes bn bp be bc bt bw bh) as Hlen.
  assert (91 <= len (vcard_bytes bn bp be bc bt bw bh)) as Hge
    by (rewrite Hlen; unfold len; lia).
  split; [done|]. split.
  { by rewrite utf8_encode_generate_vcard, Hn, Hp, He, Hc, Ht, Hw, Hh. }
  split; [done|]. split.
  - apply chosen_version_H_above_72. lia.
  - pose proof (stream_fits_iff lvl (vcard_bytes bn bp be bc bt bw bh)). lia.
Qed.

Lemma X11_vcard_never_fits_witness :
  generate_vcard (str "Ada") [] [] [] [] [] [] <> []
  /\ utf8_encode (generate_vcard (str "Ada") [] [] [] [] [] [])
     = Some (vcard_bytes [65; 100; 97] [] [] [] [] [] [])
  /\ len (vcard_bytes [65; 100; 97] [] [] [] [] [] [])
     = 91 + len [65; 100; 97] + len (@nil Z) + len (@nil Z) + len (@nil Z)
       + len (@nil Z) + len (@nil Z) + len (@nil Z)
  /\ 2 <= chosen_version H (len (vcard_bytes [65; 100; 97] [] [] [] [] [] []))
  /\ path_length (chosen_version H (len (vcard_bytes [65; 100; 97] [] [] [] [] [] [])))
     < len (bit_stream (vcard_bytes [65; 100; 97] [] [] [] [] [] [])).
Proof.
  apply (X11_vcard_never_fits (str "Ada") [] [] [] [] [] []
           [65; 100; 97] [] [] [] [] [] [] H); vm_compute; reflexivity.
Defined.

(** ** The SVG request handler *)

Lemma vcard_encodable request :
  fields_encodable request <-> utf8_encode (request_vcard request) <> None.
Proof.
  unfold fields_encodable, request_vcard. rewrite utf8_encode_generate_vcard.
  rewrite !Forall_cons, Forall_nil.
  destruct (utf8_encode (req_name request)), (utf8_encode (req_phone request)),
    (utf8_encode (req_email request)), (utf8_encode (req_company request)),
    (utf8_encode (req_title request)), (utf8_encode (req_url_work request)),
    (utf8_encode (req_url_home request));
    (split;
       [intros (H1 & H2 & H3 & H4 & H5 & H6 & H7 & _); congruence
       |intros Hv; first [by destruct Hv | repeat split; congruence]]).
Qed.

Lemma request_vcard_nonempty request : request_vcard request <> [].
Proof. done. Qed.

(** X12: the SVG handler answers 200 exactly when the seven text fields of
    the request have UTF-8 encodings, whatever the colour and the shape names
    are: it then echoes the contact record and returns one element per dark
    module of the symbol built from it at level High. Otherwise the encoding
    error becomes its 500 answer. *)
Theorem X12_svg_handler_answers
    (getrgb : string -> option (Z * Z * Z)) (request : QRCodeRequest) :
  (fields_encodable request ->
   exists svg st' g,
     generate_qr_code_svg getrgb request = Response200 (svg, request_vcard request)
     /\ (add_data (request_vcard request) ;; make) (__init__ 1 H) = Ret tt st'
     /\ modules st' = Some g
     /\ svg = svg_element_of (fill_colour getrgb (req_color request))
                <$> dark_modules g (module_count st')
                      (req_marker_shape request) (req_dot_shape request))
  /\ (~ fields_encodable request ->
      generate_qr_code_svg getrgb request = HTTPException500 UnicodeEncodeError).
Proof.
  unfold generate_qr_code_svg. cbv zeta.
  set (vcard := request_vcard request).
  set (st := with_data vcard (__init__ 1 H)).
  assert (forall k : method (list svg_element),
            (add_data vcard ;; make ;; k) (__init__ 1 H) = (make ;; k) st) as Hadd
    by reflexivity.
  assert (data st <> []) as Hne by apply request_vcard_nonempty.
  rewrite Hadd. split; intros Henc; rewrite vcard_encodable in Henc.
  - destruct (utf8_encode vcard) as [payload_bytes|] eqn:Hb; [|done].
    destruct (make_spec st payload_bytes Hne Hb) as (v & g & Hsel & Hrun & Hwf & _).
    rewrite (bind_ret _ _ _ _ _ Hrun).
    rewrite (create_qr_svg_spec getrgb _ g); [|done|exact Hwf|simpl; lia].
    eexists _, _, g. split; [reflexivity|]. split; [exact Hrun|]. done.
  - assert (utf8_encode (data st) = None) as Hb.
    { destruct (utf8_encode vcard) eqn:E; [|done].
      exfalso. apply Henc. change (utf8_encode vcard <> None). by rewrite E. }
    rewrite (bind_raise _ _ _ _ _
               (eq_trans (make_nonempty st Hne)
                  (bind_raise _ _ _ _ _ (_optimize_version_unencodable st Hb)))).
    reflexivity.
Qed.

Lemma X12_svg_handler_answers_witness :
  exists svg st' g,
    generate_qr_code_svg only_red sample_request
    = Response200 (svg, request_vcard sample_request)
    /\ (add_data (request_vcard sample_request) ;; make) (__init__ 1 H) = Ret tt st'
    /\ modules st' = Some g
    /\ svg = svg_element_of (fill_colour only_red (req_color sample_request))
               <$> dark_modules g (module_count st')
                     (req_marker_shape sample_request) (req_dot_shape sample_request).
Proof.
  apply (proj1 (X12_svg_handler_answers only_red sample_request)).
  unfold fields_encodable. repeat constructor; vm_compute; discriminate.
Defined.

(** ** The stream keeps the payload bytes *)

Lemma msb_first8_inj x y :
  is_byte x -> is_byte y -> msb_first8 x = msb_first8 y -> x = y.
Proof.
  unfold is_byte. intros Hx Hy E.
  pose proof (msb_first8_value x) as Vx. pose proof (msb_first8_value y) as Vy.
  rewrite E, Vy in Vx. rewrite !Z.mod_small in Vx by lia. done.
Qed.

Lemma concat_msb_first8_inj bytes1 bytes2 :
  Forall is_byte bytes1 -> Forall is_byte bytes2 ->
  concat (msb_first8 <$> bytes1) = concat (msb_first8 <$> bytes2) ->
  bytes1 = bytes2.
Proof.
  intros H1. revert bytes2. induction H1 as [|x bs1 Hx H1 IH];
    intros bytes2 H2 E; destruct H2 as [|y bs2 Hy H2]; try done.
  rewrite !fmap_cons in E. cbn [concat] in E.
  apply app_inj_1 in E as [Ex Er]; [|done].
  f_equal; [by apply msb_first8_inj|by apply IH].
Qed.

(** X13: the bit stream loses nothing of the payload bytes: two payloads
    for which [_encode_data] returns the same stream have the same UTF-8
    bytes. *)
Theorem X13_bit_stream_injective
    (st1 st2 : QRGenerator) (bytes1 bytes2 : list Z) (stream : list Z) :
  utf8_encode (data st1) = Some bytes1 ->
  utf8_encode (data st2) = Some bytes2 ->
  _encode_data st1 = Ret stream st1 ->
  _encode_data st2 = Ret stream st2 ->
  bytes1 = bytes2.
Proof.
  intros Henc1 Henc2 Hs1 Hs2.
  rewrite (_encode_data_spec st1 bytes1 Henc1) in Hs1.
  rewrite (_encode_data_spec st2 bytes2 Henc2) in Hs2.
  assert (bit_stream bytes1 = bit_stream bytes2) as E by congruence.
  unfold bit_stream in E. rewrite !app_assoc in E.
  apply app_inj_1 in E as [_ E]; [|done].
  destruct (utf8_encode_bytes _ _ Henc1) as [Hb1 _].
  destruct (utf8_encode_bytes _ _ Henc2) as [Hb2 _].
  by apply concat_msb_first8_inj.
Qed.

Lemma X13_bit_stream_injective_witness : [72; 105] = [72; 105].
Proof.
  apply (X13_bit_stream_injective (with_data (str "Hi") (__init__ 1 H))
           (with_data (str "Hi") (__init__ 3 L)) [72; 105] [72; 105]
           (bit_stream [72; 105])); reflexivity.
Defined.

(** ** Every dark module is drawn once *)

Lemma dark_modules_coordinates_NoDup g n marker_shape dot_shape :
  NoDup ((fun m : Z * Z * ShapeVariant => m.1) <$> dark_modules g n marker_shape dot_shape).
Proof.
  unfold dark_modules.
  assert (NoDup (positions (py_range n) (py_range n))) as Hnd
    by (apply NoDup_positions; apply NoDup_seqZ).
  induction Hnd as [|p ps Hp Hnd IH]; [constructor|].
  rewrite fmap_cons. cbn [concat]. rewrite fmap_app. apply NoDup_app.
  split; [|split; [|exact IH]].
  - destruct (cell_at g p.1 p.2) as [v|]; [|constructor].
    destruct (truthy v); [|constructor]. apply NoDup_singleton.
  - intros q Hq Hq'. apply Hp.
    apply list_elem_of_fmap in Hq' as (m & Eq & Hm).
    apply elem_of_concat in Hm as (l & Hm & Hl).
    apply list_elem_of_fmap in Hl as (p' & El & Hp').
    assert (m.1 = p') as Em.
    { subst l. destruct (cell_at g p'.1 p'.2) as [v|]; [|inversion Hm].
      destruct (truthy v); [|inversion Hm].
      apply list_elem_of_singleton in Hm. subst m. by destruct p'. }
    assert (q = p) as Ep.
    { destruct (cell_at g p.1 p.2) as [v|]; [|inversion Hq].
      destruct (truthy v); [|inversion Hq].
      apply list_elem_of_singleton in Hq. subst q. by destruct p. }
    congruence.
Qed.

(** X14: on a finished symbol each renderer draws every dark module of the
    grid exactly once and nothing else: the coordinates of its primitives are
    pairwise distinct, and a position is among them exactly when it lies in
    the grid and its module is dark. *)
Theorem X14_each_dark_module_drawn_once
    (getrgb : string -> option (Z * Z * Z)) (st : QRGenerator)
    (color marker_shape dot_shape : string) :
  grid_ok st -> module_count st <> 0 ->
  exists g img svg,
    modules st = Some g
    /\ create_qr_image getrgb color marker_shape dot_shape st = Ret img st
    /\ create_qr_svg getrgb color marker_shape dot_shape st = Ret svg st
    /\ NoDup (image_coordinates <$> img)
    /\ NoDup (svg_coordinates <$> svg)
    /\ forall r c,
         ((r, c) ∈ image_coordinates <$> img
          <-> in_grid (module_count st) r c /\ dark_at g r c)
         /\ ((r, c) ∈ svg_coordinates <$> svg
             <-> in_grid (module_count st) r c /\ dark_at g r c).
Proof.
  intros Hok Hn. destruct (grid_ok_allocated st Hok Hn) as (g & Hm & Hwf).
  eexists g, _, _. split; [done|].
  split; [by apply create_qr_image_spec|].
  split; [by apply create_qr_svg_spec|].
  assert (forall fill,
            image_coordinates <$> (draw_call_of fill
              <$> dark_modules g (module_count st) marker_shape dot_shape)
            = (fun m : Z * Z * ShapeVariant => m.1)
                <$> dark_modules g (module_count st) marker_shape dot_shape) as Ei.
  { intros fill. rewrite <- list_fmap_compose. apply list_fmap_ext.
    by intros _ [[r c] []] _. }
  assert (forall fill,
            svg_coordinates <$> (svg_element_of fill
              <$> dark_modules g (module_count st) marker_shape dot_shape)
            = (fun m : Z * Z * ShapeVariant => m.1)
                <$> dark_modules g (module_count st) marker_shape dot_shape) as Es.
  { intros fill. rewrite <- list_fmap_compose. apply list_fmap_ext.
    by intros _ [[r c] []] _. }
  rewrite Ei, Es.
  split; [apply dark_modules_coordinates_NoDup|].
  split; [apply dark_modules_coordinates_NoDup|].
  assert (forall r c,
            (r, c) ∈ (fun m : Z * Z * ShapeVariant => m.1)
                       <$> dark_modules g (module_count st) marker_shape dot_shape
            <-> in_grid (module_count st) r c /\ dark_at g r c) as Hmem.
  { intros r c. rewrite list_elem_of_fmap. unfold dark_at. split.
    - intros ([[r' c'] s] & E & Hin). simpl in E. simplify_eq.
      apply elem_of_dark_modules in Hin as (Hg & v & Hv & Ht & _). eauto.
    - intros (Hg & v & Hv & Ht). eexists (r, c, _). split; [reflexivity|].
      apply elem_of_dark_modules. eauto. }
  intros r c. split; apply Hmem.
Qed.

Lemma X14_each_dark_module_drawn_once_witness :
  exists g img svg,
    modules hello_world_symbol = Some g
    /\ create_qr_image only_red "blue" "rounded" "dot" hello_world_symbol
       = Ret img hello_world_symbol
    /\ create_qr_svg only_red "blue" "rounded" "dot" hello_world_symbol
       = Ret svg hello_world_symbol
    /\ NoDup (image_coordinates <$> img)
    /\ NoDup (svg_coordinates <$> svg)
    /\ forall r c,
         ((r, c) ∈ image_coordinates <$> img
          <-> in_grid (module_count hello_world_symbol) r c /\ dark_at g r c)
         /\ ((r, c) ∈ svg_coordinates <$> svg
             <-> in_grid (module_count hello_world_symbol) r c /\ dark_at g r c).
Proof.
  apply (X14_each_dark_module_drawn_once only_red hello_world_symbol
           "blue" "rounded" "dot").
  - refine (bool_decide_eq_true_1 _ _). vm_compute. reflexivity.
  - vm_compute. discriminate.
Defined.

(** X15: an object on which [make] has not built a symbol cannot be
    rendered. With an empty payload [make] raises and leaves
    [module_count] at the 0 of the constructor, and on an object with
    [module_count = 0] both renderers raise ZeroDivisionError when they
    compute the cell size. *)
Theorem X15_render_before_make_divides_by_zero
    (getrgb : string -> option (Z * Z * Z)) (v : Z) (lvl : ErrorCorrectionLevel)
    (st : QRGenerator) (color marker_shape dot_shape : string) :
  module_count st = 0 ->
  create_qr_image getrgb color marker_shape dot_shape st = Raise ZeroDivisionError st
  /\ create_qr_svg getrgb color marker_shape dot_shape st = Raise ZeroDivisionError st
  /\ make (__init__ v lvl) = Raise ValueError_no_data (__init__ v lvl)
  /\ module_count (__init__ v lvl) = 0.
Proof.
  intros Hn. unfold create_qr_image, create_qr_svg, get_module_count, bind, self, ret.
  rewrite Hn. done.
Qed.

Lemma X15_render_before_make_divides_by_zero_witness :
  create_qr_image only_red "#ff0000" "square" "square" (__init__ 1 H)
  = Raise ZeroDivisionError (__init__ 1 H)
  /\ create_qr_svg only_red "#ff0000" "square" "square" (__init__ 1 H)
     = Raise ZeroDivisionError (__init__ 1 H)
  /\ make (__init__ 1 H) = Raise ValueError_no_data (__init__ 1 H)
  /\ module_count (__init__ 1 H) = 0.
Proof.
  apply (X15_render_before_make_divides_by_zero only_red 1 H (__init__ 1 H)
           "#ff0000" "square" "square").
  reflexivity.
Defined.

(** ** Column 0 receives no payload bit *)

Lemma write_bits_other n g bits path r c :
  wf_grid n g ->
  (forall p, p ∈ path -> in_grid n p.1 p.2) ->
  0 <= r -> 0 <= c -> (r, c) ∉ path ->
  cell_at (write_bits g bits path) r c = cell_at g r c.
Proof.
  revert g path. induction bits as [|b bits IH]; intros g [|p path] Hwf Hin Hr Hc Hp;
    try done.
  rewrite write_bits_cons. rewrite IH.
  - rewrite (grid_set_cell_at n) by (done || apply Hin; left).
    rewrite decide_False; [done|]. intros [-> ->]. apply Hp. destruct p. left.
  - by apply grid_set_wf.
  - intros q Hq. apply Hin. by right.
  - done.
  - done.
  - intros Hq. apply Hp. by right.
Qed.

Lemma placement_path_in_grid st p :
  p ∈ placement_path st -> in_grid (module_count st) p.1 p.2.
Proof.
  unfold placement_path, positions_of, data_visits. rewrite list_elem_of_fmap.
  intros (v & -> & Hv). apply list_elem_of_In, filter_In in Hv as [Hv _].
  apply list_elem_of_In in Hv. by apply visit_in_grid.
Qed.

Lemma column_0_checks v lvl :
  1 <= v <= 5 ->
  path_avoids_column_0 v = true
  /\ column_0_light (4 * v + 17) (function_patterns v lvl) = true.
Proof.
  intros Hv. version_cases v Hc; destruct lvl; split; vm_compute; reflexivity.
Qed.

(** X16: no payload bit is ever stored in column 0. In every finished
    symbol the modules of column 0 between the finder neighbourhoods, rows 9
    to size-9, show the bare mask over the light modules of the allocation:
    dark in the even rows, light in the odd rows, whatever the payload. *)
Theorem X16_column_0_holds_no_payload (st : QRGenerator) (payload_bytes : list Z) :
  data st <> [] -> utf8_encode (data st) = Some payload_bytes ->
  exists st' g,
    make st = Ret tt st' /\ modules st' = Some g
    /\ (forall p, p ∈ placement_path st' -> p.2 <> 0)
    /\ forall r, 9 <= r <= module_count st' - 9 ->
         cell_at g r 0 = Some (PyBool (r mod 2 =? 0)).
Proof.
  intros Hne Henc. rewrite (make_writes_stream st payload_bytes Hne Henc).
  set (v := chosen_version (error_correction st) (len payload_bytes)).
  set (lvl := error_correction st).
  pose proof (chosen_version_range lvl (len payload_bytes)) as Hv. fold v in Hv.
  destruct (function_patterns_wf v lvl Hv) as [Hwf _].
  destruct (column_0_checks v lvl Hv) as [Hpath Hlight].
  set (path := placement_path (mkQR v L None (4 * v + 17) [])) in *.
  set (g1 := write_bits (function_patterns v lvl) (bit_stream payload_bytes) path).
  assert (wf_grid (4 * v + 17) g1) as Hwf1 by (by apply write_bits_wf).
  destruct (_apply_mask_spec (mkQR v lvl (Some g1) (4 * v + 17) (data st)) g1
              eq_refl Hwf1) as (g2 & Hrun & Hwf2 & Hc2).
  assert (forall p, p ∈ path -> p.2 <> 0) as Havoid.
  { intros p Hp. unfold path_avoids_column_0 in Hpath. fold path in Hpath.
    rewrite forallb_forall in Hpath.
    specialize (Hpath p (proj1 (list_elem_of_In _ _) Hp)).
    apply negb_true_iff, Z.eqb_neq in Hpath. done. }
  eexists _, g2. split; [exact Hrun|]. split; [reflexivity|].
  split; [exact Havoid|]. cbn [module_count with_modules]. intros r Hr.
  cbn [module_count] in Hc2. rewrite Hc2 by (unfold in_grid; lia).
  unfold g1. rewrite (write_bits_other (4 * v + 17)); try done; try lia.
  - unfold column_0_light in Hlight.
    pose proof (forallb_range _ _ _ r Hlight ltac:(lia)) as Hcell.
    apply holds_true in Hcell. rewrite Hcell.
    assert (forall m, _is_function_module (mkQR v lvl m (4 * v + 17) (data st)) r 0
                      = false) as Hnf.
    { intros m. unfold _is_function_module. cbn [version module_count].
      bool_cases; simpl; (done || lia). }
    unfold mask_value, masked. cbn [fst snd fmap option_fmap option_map].
    rewrite Hnf, Z.add_0_r. cbn [negb andb]. f_equal.
    by destruct (r mod 2 =? 0).
  - intros p Hp.
    apply (placement_path_in_grid (mkQR v L None (4 * v + 17) []) p Hp).
  - intros Hp. by apply (Havoid _ Hp).
Qed.

Lemma X16_column_0_holds_no_payload_witness :
  exists st' g,
    make hello_world = Ret tt st' /\ modules st' = Some g
    /\ (forall p, p ∈ placement_path st' -> p.2 <> 0)
    /\ forall r, 9 <= r <= module_count st' - 9 ->
         cell_at g r 0 = Some (PyBool (r mod 2 =? 0)).
Proof.
  apply (X16_column_0_holds_no_payload hello_world hello_world_bytes).
  - discriminate.
  - reflexivity.
Defined.

(** ** Function modules are never written after the patterns *)

Lemma placement_path_not_function st p :
  p ∈ placement_path st -> _is_function_module st p.1 p.2 = false.
Proof.
  unfold placement_path, positions_of, data_visits. rewrite list_elem_of_fmap.
  intros (v & -> & Hv). apply list_elem_of_In, filter_In in Hv as [_ Hv].
  by apply negb_true_iff in Hv.
Qed.

Lemma write_bits_function_modules st g bits r c :
  wf_grid (module_count st) g -> in_grid (module_count st) r c ->
  _is_function_module st r c = true ->
  cell_at (write_bits g bits (placement_path st)) r c = cell_at g r c.
Proof.
  intros Hwf [Hr Hc] Hf. apply (write_bits_other (module_count st)); try done; try lia.
  - apply placement_path_in_grid.
  - intros Hp. apply placement_path_not_function in Hp. simpl in Hp. congruence.
Qed.

(** X17: data placement followed by the mask never changes a function
    module. On every square grid, of any side and for any version, with any
    stream, the two stages return without error and every position the
    classifier reserves holds the module it held before. *)
Theorem X17_function_modules_untouched
    (st0 : QRGenerator) (g0 : grid) (data : list Z) :
  wf_grid (module_count st0) g0 ->
  exists g,
    (_place_data data ;; _apply_mask) (with_modules (Some g0) st0)
    = Ret tt (with_modules (Some g) st0)
    /\ wf_grid (module_count st0) g
    /\ forall r c, in_grid (module_count st0) r c ->
         _is_function_module st0 r c = true -> cell_at g r c = cell_at g0 r c.
Proof.
  intros Hwf.
  rewrite (bind_ret _ _ _ _ _ (_place_data_writes_path st0 g0 data Hwf)).
  set (g1 := write_bits g0 data (placement_path st0)).
  assert (wf_grid (module_count st0) g1) as Hwf1 by (by apply write_bits_wf).
  destruct (_apply_mask_spec (with_modules (Some g1) st0) g1 eq_refl Hwf1)
    as (g2 & Hrun & Hwf2 & Hc2).
  exists g2. split; [exact Hrun|]. split; [exact Hwf2|].
  intros r c Hrc Hf. change (module_count (with_modules (Some g1) st0))
    with (module_count st0) in Hc2.
  rewrite (Hc2 r c Hrc). unfold mask_value, masked. cbn [fst snd].
  change (_is_function_module (with_modules (Some g1) st0) r c)
    with (_is_function_module st0 r c). rewrite Hf. cbn [negb andb].
  unfold g1. rewrite write_bits_function_modules by done.
  by destruct (cell_at g0 r c).
Qed.

Lemma X17_function_modules_untouched_witness :
  exists g,
    (_place_data (bit_stream [65]) ;; _apply_mask)
      (with_modules (Some (function_patterns 3 Q)) (mkQR 3 Q None 29 (str "A")))
    = Ret tt (with_modules (Some g) (mkQR 3 Q None 29 (str "A")))
    /\ wf_grid (module_count (mkQR 3 Q None 29 (str "A"))) g
    /\ forall r c, in_grid (module_count (mkQR 3 Q None 29 (str "A"))) r c ->
         _is_function_module (mkQR 3 Q None 29 (str "A")) r c = true ->
         cell_at g r c = cell_at (function_patterns 3 Q) r c.
Proof.
  apply (X17_function_modules_untouched (mkQR 3 Q None 29 (str "A"))
           (function_patterns 3 Q) (bit_stream [65])).
  refine (bool_decide_eq_true_1 _ _). vm_compute. reflexivity.
Defined.
